(** * gpt_api: batched completion requests with a resumable output file

    A shallow embedding of [tools/paper_with_code/Self_Instruct/gpt_api.py]:
    the function [make_requests] and the [__main__] script that loads the
    previously written records, reads the prompts, splits them into batches
    and writes one JSON line per record.

    Python values are modelled by the types the script gives them: prompts
    are strings, integers are [Z], the dictionary [existing_responses] is a
    [gmap], exceptions are the [Raise] branch of [Result], and the effects of
    the script (the remote call, the clock, the output file) are threaded
    through a state-and-error monad over [World]. *)

From Stdlib Require Import ZArith QArith List String Ascii Bool Lia.
From stdpp Require Import gmap strings list fin_maps.
Import ListNotations.

Local Open Scope string_scope.
Local Open Scope list_scope.

(** ** Exceptions and results *)

Inductive Exn : Type :=
| TypeError
| NameError
| ValueError
| KeyError
| JSONDecodeError
| APIError (transient : bool).

Inductive Result (A : Type) : Type :=
| Ok (a : A)
| Raise (e : Exn).

Arguments Ok {A} a.
Arguments Raise {A} e.

(** ** Python built-ins used by the script *)

Module Py.

(** [l[a:b]] for integer bounds: a negative bound counts from the end, and
    both bounds are clipped to [0 .. len(l)]. *)
Definition clip (len i : Z) : Z :=
  if (i <? 0)%Z then Z.max 0 (i + len) else Z.min i len.

Definition slice {A} (l : list A) (a b : Z) : list A :=
  let len := Z.of_nat (List.length l) in
  let lo := clip len a in
  let hi := clip len b in
  firstn (Z.to_nat (hi - lo)) (skipn (Z.to_nat lo) l).

(** [len(range(start, stop, step))] for a non-zero step. *)
Definition range_len (start stop step : Z) : Z :=
  if (0 <? step)%Z
  then (if (start <? stop)%Z then (stop - start - 1) / step + 1 else 0)%Z
  else (if (stop <? start)%Z then (start - stop - 1) / (- step) + 1 else 0)%Z.

(** [range(start, stop, step)]: a zero step raises [ValueError]. *)
Definition range (start stop step : Z) : Result (list Z) :=
  if (step =? 0)%Z then Raise ValueError
  else Ok (map (fun k => (start + Z.of_nat k * step)%Z)
               (seq 0 (Z.to_nat (range_len start stop step)))).

(** [s.endswith(suffix)] *)
Definition endswith (s suffix : string) : bool :=
  let ls := String.length s in
  let lf := String.length suffix in
  (lf <=? ls)%nat && String.eqb (substring (ls - lf) lf s) suffix.

(** [c.isspace()] on the ASCII range. *)
Definition isspace (c : ascii) : bool :=
  let k := nat_of_ascii c in
  ((9 <=? k)%nat && (k <=? 13)%nat) || ((28 <=? k)%nat && (k <=? 32)%nat).

Fixpoint lstrip (s : string) : string :=
  match s with
  | String c s' => if isspace c then lstrip s' else s
  | EmptyString => EmptyString
  end.

Fixpoint rstrip (s : string) : string :=
  match s with
  | String c s' =>
      match rstrip s' with
      | EmptyString => if isspace c then EmptyString else String c EmptyString
      | t => String c t
      end
  | EmptyString => EmptyString
  end.

(** [s.strip()] *)
Definition strip (s : string) : string := rstrip (lstrip s).

Definition backslash : ascii := ascii_of_nat 92.
Definition newline : ascii := ascii_of_nat 10.

(** [s.replace("\\n", "\n")]: every backslash followed by the letter n,
    scanning from the left, becomes one line feed. *)
Fixpoint replace_backslash_n (s : string) : string :=
  match s with
  | String c s1 =>
      match s1 with
      | String d s2 =>
          if Ascii.eqb c backslash && Ascii.eqb d "n"%char
          then String newline (replace_backslash_n s2)
          else String c (replace_backslash_n s1)
      | EmptyString => s
      end
  | EmptyString => EmptyString
  end.

End Py.

(** ** The world the script runs in *)

(** [calls] counts the invocations of the remote completion endpoint,
    [sleeps] lists the waits performed with [time.sleep], [ticks] counts the
    readings of the clock and [output_file] is the content of the file named
    by [--output_file], one entry per line, or [None] when it does not
    exist. *)
Record World : Type := mkWorld {
  calls : nat;
  sleeps : list Z;
  ticks : nat;
  output_file : option (list string)
}.

Definition Eff (A : Type) : Type := World -> World * Result A.

Definition ret {A} (a : A) : Eff A := fun w => (w, Ok a).

Definition raise {A} (e : Exn) : Eff A := fun w => (w, Raise e).

Definition bind {A B} (m : Eff A) (k : A -> Eff B) : Eff B :=
  fun w =>
    match m w with
    | (w', Ok a) => k a w'
    | (w', Raise e) => (w', Raise e)
    end.

Notation "'do' x <- m ; k" := (bind m (fun x => k))
  (at level 10, x name, m at level 100, k at level 200).
Notation "m ;; k" := (bind m (fun _ => k))
  (at level 100, k at level 200, right associativity).

Definition lift {A} (r : Result A) : Eff A := fun w => (w, r).

(** [for x in xs: body(x)] for a body that only has effects. *)
Fixpoint for_each {A} (body : A -> Eff unit) (xs : list A) : Eff unit :=
  match xs with
  | [] => ret tt
  | x :: xs' => body x ;; for_each body xs'
  end.

(** A list comprehension [[f(x) for x in xs]] whose element expression may
    raise. *)
Fixpoint comprehension {A B} (f : A -> Result B) (xs : list A) : Result (list B) :=
  match xs with
  | [] => Ok []
  | x :: xs' =>
      match f x with
      | Ok y =>
          match comprehension f xs' with
          | Ok ys => Ok (y :: ys)
          | Raise e => Raise e
          end
      | Raise e => Raise e
      end
  end.

(** Primitive effects. *)

(** [time.sleep(d)]. The module imports [time], and this is the only way
    the list [sleeps] grows; no function of the file calls it. *)
Definition time_sleep (d : Z) : Eff unit :=
  fun w => (mkWorld (calls w) (sleeps w ++ [d]) (ticks w) (output_file w), Ok tt).

(** [open(args.output_file, "w")]: the file is created or truncated. *)
Definition open_w : Eff unit :=
  fun w => (mkWorld (calls w) (sleeps w) (ticks w) (Some []), Ok tt).

(** [fout.write(s)] *)
Definition fout_write (s : string) : Eff unit :=
  fun w =>
    (mkWorld (calls w) (sleeps w) (ticks w)
       (Some (match output_file w with Some ls => ls | None => [] end ++ [s])),
     Ok tt).

(** ** make_requests *)

Section Executor.

(** One completion choice of the remote service and the floating-point
    numbers of the sampling parameters are opaque to the script. *)
Context {Choice Float : Type}.

(** The object returned by [client.completions.create]; the script reads
    its attribute [choices] only. *)
Record Response : Type := mkResponse {
  response_id : string;
  choices : list Choice
}.

(** The argument [prompts]: a single string or a list of strings. *)
Inductive Prompts : Type :=
| PStr (s : string)
| PList (l : list string).

(** The keyword arguments of [client.completions.create]. *)
Record Request : Type := mkRequest {
  rq_model : string;
  rq_prompt : Prompts;
  rq_max_tokens : Z;
  rq_temperature : Float;
  rq_top_p : Float;
  rq_frequency_penalty : Float;
  rq_presence_penalty : Float;
  rq_stop : list string;
  rq_logprobs : Z;
  rq_n : Z;
  rq_best_of : Z
}.

(** The value stored under ["response"]: the dictionary
    [{"choices": ...}] built for a list of prompts, or the response object
    itself for a single prompt. *)
Inductive ResponseField : Type :=
| Sliced (cs : list Choice)
| Whole (r : Response).

(** The dictionary [data] with the keys ["prompt"], ["response"] and
    ["created_at"]; [None] is Python's [None]. *)
Record ResultRecord : Type := mkRecord {
  prompt : string;
  response : option ResponseField;
  created_at : string
}.

(** The remote endpoint: what its [k]-th invocation (counted from 0 over
    the whole run) does with a request, returning a response or raising. *)
Variable remote : nat -> Request -> Result Response.

(** The clock: the text of [str(datetime.now())] at its [k]-th reading. *)
Variable clock : nat -> string.

(** The module-level [model_name]. *)
Variable model_name : string.

(** [client.completions.create(...)] *)
Definition completions_create (rq : Request) : Eff Response :=
  fun w =>
    (mkWorld (S (calls w)) (sleeps w) (ticks w) (output_file w),
     remote (calls w) rq).

(** [str(datetime.now())] *)
Definition datetime_now : Eff string :=
  fun w =>
    (mkWorld (calls w) (sleeps w) (S (ticks w)) (output_file w),
     Ok (clock (ticks w))).

(** The parameters of [make_requests] that are passed on unchanged. *)
Record Generation : Type := mkGeneration {
  max_tokens : Z;
  temperature : Float;
  top_p : Float;
  frequency_penalty : Float;
  presence_penalty : Float;
  stop_sequences : list string;
  logprobs : Z;
  best_of : Z
}.

(** The keyword arguments that [make_requests] passes to the endpoint;
    [target_length] is [max_tokens]. *)
Definition request_of (prompts : Prompts) (g : Generation) (n : Z) : Request :=
  let target_length := max_tokens g in
  mkRequest model_name prompts target_length (temperature g) (top_p g)
    (frequency_penalty g) (presence_penalty g) (stop_sequences g)
    (logprobs g) n (best_of g).

(** Lines 55-71. The loop [while retry_cnt <= retries: response = ...; break]
    leaves on [break] at the end of its first iteration whatever the call
    did, [retry_cnt] stays 0 and [backoff_time] is never read: the body runs
    once when [0 <= retries] and not at all otherwise. An exception of the
    call is not caught. *)
Definition request_loop (prompts : Prompts) (g : Generation) (n retries : Z)
  : Eff (option Response) :=
  let retry_cnt := 0%Z in
  if (retry_cnt <=? retries)%Z then
    do r <- completions_create (request_of prompts g n);
    ret (Some r)
  else ret None.

(** Line 78: [{"choices": response.choices[j * n: (j + 1) * n]} if response
    else None]; a response object is truthy. *)
Definition field_at (resp : option Response) (n : Z) (j : Z)
  : option ResponseField :=
  match resp with
  | Some r => Some (Sliced (Py.slice (choices r) (j * n) ((j + 1) * n)))
  | None => None
  end.

(** Lines 75-81: the body of [for j, prompt in enumerate(prompts)], with
    the list [results] built so far. *)
Fixpoint results_loop (resp : option Response) (n : Z) (j : Z)
    (prompts : list string) (results : list ResultRecord)
  : Eff (list ResultRecord) :=
  match prompts with
  | [] => ret results
  | p :: ps =>
      let field := field_at resp n j in
      do now <- datetime_now;
      results_loop resp n (j + 1) ps (results ++ [mkRecord p field now])
  end.

(** The records that this loop appends, in closed form: from index [j] on
    and from the [t]-th reading of the clock on. *)
Fixpoint records_from (resp : option Response) (n : Z) (j : Z) (t : nat)
    (prompts : list string) : list ResultRecord :=
  match prompts with
  | [] => []
  | p :: ps =>
      mkRecord p (field_at resp n j) (clock t)
        :: records_from resp n (j + 1) (S t) ps
  end.

(** [make_requests(prompts, ..., n, best_of, retries)] *)
Definition make_requests (prompts : Prompts) (g : Generation) (n retries : Z)
  : Eff (list ResultRecord) :=
  do resp <- request_loop prompts g n retries;
  match prompts with
  | PList l => results_loop resp n 0 l []
  | PStr s =>
      do now <- datetime_now;
      ret [mkRecord s
             (match resp with Some r => Some (Whole r) | None => None end)
             now]
  end.

End Executor.

Arguments Response : clear implicits.
Arguments ResponseField : clear implicits.
Arguments ResultRecord : clear implicits.
Arguments Request : clear implicits.
Arguments Generation : clear implicits.

(** ** The script *)

(** The parameters in the signature of [make_requests] (it takes no
    [**kwargs]) and the keywords of the call on lines 202-214. *)
Definition make_requests_parameters : list string :=
  ["prompts"; "max_tokens"; "temperature"; "top_p"; "frequency_penalty";
   "presence_penalty"; "stop_sequences"; "logprobs"; "n"; "best_of";
   "retries"; "api_key"].

Definition call_keywords : list string :=
  ["engine"; "prompts"; "max_tokens"; "temperature"; "top_p";
   "frequency_penalty"; "presence_penalty"; "stop_sequences"; "logprobs";
   "n"; "best_of"].

(** A call with a keyword that names no parameter raises [TypeError] before
    the body of the function runs. *)
Definition unexpected_keyword (parameters keywords : list string) : bool :=
  negb (forallb (fun k => existsb (String.eqb k) parameters) keywords).

(** The one-character string that Python writes as ["\n"]. *)
Definition nl : string := String Py.newline EmptyString.

(** The names that the block reading the input file binds. *)
Record Names : Type := mkNames {
  all_prompts : option (list string);
  all_prompt : option (list string)
}.

Section Script.

Context {Choice Float : Type}.

Variable remote : nat -> Request Float -> Result (Response Choice).
Variable clock : nat -> string.
Variable model_name : string.

(** [json.dumps(data)] and [json.loads(line)] on the lines of the output
    file, whose documents are the records of the script; [json_loads]
    raises on a line that is no such document. [json_loads_prompt] is
    [json.loads(line)["prompt"]] on a line of the input file. *)
Variable json_dumps : ResultRecord Choice -> string.
Variable json_loads : string -> Result (ResultRecord Choice).
Variable json_loads_prompt : string -> Result string.

(** The parsed command line ([parse_args]). *)
Record Args : Type := mkArgs {
  input_file : string;
  engine : option string;
  generation : Generation Float;
  args_n : Z;
  use_existing_responses : bool;
  request_batch_size : Z
}.

(** Lines 184-186: [for line in fin: data = json.loads(line);
    existing_responses[data["prompt"]] = data]. *)
Fixpoint read_existing (lines : list string)
    (existing_responses : gmap string (ResultRecord Choice))
  : Result (gmap string (ResultRecord Choice)) :=
  match lines with
  | [] => Ok existing_responses
  | line :: rest =>
      match json_loads line with
      | Ok data => read_existing rest (<[prompt data := data]> existing_responses)
      | Raise e => Raise e
      end
  end.

(** Lines 181-186. *)
Definition load_existing_responses (args : Args)
  : Eff (gmap string (ResultRecord Choice)) :=
  fun w =>
    match output_file w with
    | Some lines =>
        if use_existing_responses args then (w, read_existing lines ∅)
        else (w, Ok ∅)
    | None => (w, Ok ∅)
    end.

(** Lines 189-193, on the lines [fin] of the input file: the first branch
    binds [all_prompts], the second binds [all_prompt]. *)
Definition read_input (args : Args) (fin : list string) : Result Names :=
  if Py.endswith (input_file args) ".jsonl" then
    match comprehension json_loads_prompt fin with
    | Ok ps => Ok (mkNames (Some ps) None)
    | Raise e => Raise e
    end
  else
    Ok (mkNames None
          (Some (map (fun line => Py.replace_backslash_n (Py.strip line)) fin))).

(** Reading a name that is not bound raises [NameError]. *)
Definition read_name {A} (v : option A) : Eff A :=
  match v with Some a => ret a | None => raise NameError end.

(** Lines 202-214: the call [make_requests(engine=..., prompts=..., ...)],
    with the default [retries=3]. *)
Definition call_make_requests (args : Args) (batch_prompts : list string)
  : Eff (list (ResultRecord Choice)) :=
  if unexpected_keyword make_requests_parameters call_keywords
  then raise TypeError
  else make_requests remote clock model_name (PList batch_prompts)
         (generation args) (args_n args) 3.

(** [p in existing_responses] *)
Definition cached (existing_responses : gmap string (ResultRecord Choice))
    (p : string) : bool :=
  bool_decide (is_Some (existing_responses !! p)).

(** Lines 197-216: the body of the loop over the batch offsets [i]. *)
Definition process_batch
    (existing_responses : gmap string (ResultRecord Choice))
    (prompts : list string) (args : Args) (i : Z) : Eff unit :=
  let batch_prompts := Py.slice prompts i (i + request_batch_size args) in
  if forallb (cached existing_responses) batch_prompts then
    for_each
      (fun p =>
         match existing_responses !! p with
         | Some data => fout_write (json_dumps data ++ nl)
         | None => raise KeyError
         end)
      batch_prompts
  else
    do results <- call_make_requests args batch_prompts;
    for_each (fun data => fout_write (json_dumps data ++ nl)) results.

(** Lines 181-216, after the command line is parsed and the directory of
    the output file exists; [fin] holds the lines of the input file. *)
Definition main (args : Args) (fin : list string) : Eff unit :=
  do existing_responses <- load_existing_responses args;
  do names <- lift (read_input args fin);
  open_w ;;
  do prompts <- read_name (all_prompts names);
  do offsets <- lift (Py.range 0 (Z.of_nat (List.length prompts))
                        (request_batch_size args));
  for_each (process_batch existing_responses prompts args) offsets.

End Script.

Arguments Args : clear implicits.


(** The batches visited by the loop of lines 196-197, taken on their own:
    the slice [all_prompts[i : i + request_batch_size]] for every [i] of
    [range(0, len(all_prompts), request_batch_size)]. *)
Definition split_batches (prompts : list string) (batch_size : Z)
  : Result (list (list string)) :=
  match Py.range 0 (Z.of_nat (List.length prompts)) batch_size with
  | Ok offsets => Ok (map (fun i => Py.slice prompts i (i + batch_size)) offsets)
  | Raise e => Raise e
  end.

(** The same command line with [--use_existing_responses] given. *)
Definition with_resumption {Float : Type} (args : Args Float) : Args Float :=
  mkArgs (input_file args) (engine args) (generation args) (args_n args)
    true (request_batch_size args).

(** The line written for a record. *)
Definition record_line {Choice : Type}
    (json_dumps : ResultRecord Choice -> string) (data : ResultRecord Choice)
  : string :=
  json_dumps data ++ nl.

(** ** Remote endpoints used as test doubles *)

(** Fails with a transient error on its first [R] invocations and answers
    [r] from then on. *)
Definition fails_then_succeeds {Choice Float : Type} (R : nat)
    (r : Response Choice) : nat -> Request Float -> Result (Response Choice) :=
  fun k _ => if (k <? R)%nat then Raise (APIError true) else Ok r.

(** Fails with a transient error on every invocation. *)
Definition always_fails {Choice Float : Type}
  : nat -> Request Float -> Result (Response Choice) :=
  fun _ _ => Raise (APIError true).

(** ** A concrete setting

    Choices are their texts, sampling parameters are rationals, and the JSON
    codec is fixed on the handful of documents that the examples use. *)

Module Scenario.

Definition quote : string := String (ascii_of_nat 34) EmptyString.

Definition json_string (s : string) : string := quote ++ s ++ quote.

Fixpoint json_strings (l : list string) : string :=
  match l with
  | [] => EmptyString
  | [s] => json_string s
  | s :: rest => json_string s ++ ", " ++ json_strings rest
  end.

(** The text [json.dumps] gives for a record whose strings need no
    escaping. *)
Definition json_dumps (data : ResultRecord string) : string :=
  "{" ++ json_string "prompt" ++ ": " ++ json_string (prompt data) ++ ", "
      ++ json_string "response" ++ ": "
      ++ match response data with
         | None => "null"
         | Some (Sliced cs) =>
             "{" ++ json_string "choices" ++ ": [" ++ json_strings cs ++ "]}"
         | Some (Whole r) =>
             "{" ++ json_string "id" ++ ": " ++ json_string (response_id r)
                 ++ ", " ++ json_string "choices" ++ ": ["
                 ++ json_strings (choices r) ++ "]}"
         end
      ++ ", " ++ json_string "created_at" ++ ": "
      ++ json_string (created_at data) ++ "}".

Definition recA : ResultRecord string := mkRecord "A" (Some (Sliced ["a1"])) "t0".
Definition recB : ResultRecord string := mkRecord "B" (Some (Sliced ["b1"])) "t1".
Definition recC : ResultRecord string := mkRecord "C" None "t2".

Definition documents : list (ResultRecord string) := [recA; recB; recC].

(** [json.loads] on the lines of the documents above; any other line is
    rejected. *)
Definition json_loads (line : string) : Result (ResultRecord string) :=
  match List.find (fun d => String.eqb (json_dumps d ++ nl) line) documents with
  | Some d => Ok d
  | None => Raise JSONDecodeError
  end.

(** A line of a [.jsonl] input file holding the prompt [p]. *)
Definition input_line (p : string) : string :=
  "{" ++ json_string "prompt" ++ ": " ++ json_string p ++ "}" ++ nl.

(** [json.loads(line)["prompt"]] on the input lines of four prompts. *)
Definition json_loads_prompt (line : string) : Result string :=
  match List.find (fun p => String.eqb (input_line p) line) ["A"; "B"; "C"; "D"] with
  | Some p => Ok p
  | None => Raise JSONDecodeError
  end.

Definition clock (k : nat) : string :=
  String "t"%char (String (ascii_of_nat (48 + k)) EmptyString).

Definition model_name : string := "gpt-4o".

(** The defaults of [parse_args], with [--n 1 --best_of 1]. *)
Definition generation : Generation Q :=
  mkGeneration 500 (Qmake 7 10) (Qmake 1 2) (Qmake 0 1) (Qmake 0 1) [(nl ++ nl)%string] 5 1.

Definition args (input : string) (resume : bool) (batch_size : Z) : Args Q :=
  mkArgs input None generation 1 resume batch_size.

Definition answer : Response string :=
  mkResponse "cmpl-1" ["c0"; "c1"; "c2"; "c3"; "c4"; "c5"].

(** A world in which nothing has happened and no output file exists. *)
Definition fresh : World := mkWorld 0 [] 0 None.

(** A world whose output file holds the three documents. *)
Definition resumed : World :=
  mkWorld 0 [] 0 (Some (map (record_line json_dumps) documents)).

(** A line of a plain-text input file: a prompt with an escaped line
    break, ended by the line feed of the file. *)
Definition text_line : string := ("first\nsecond" ++ nl)%string.

(** The store loaded from the output file of [resumed]. *)
Definition full_store : gmap string (ResultRecord string) :=
  <["C" := recC]> (<["B" := recB]> (<["A" := recA]> ∅)).

(** A store that holds two of the four prompts. *)
Definition half_store : gmap string (ResultRecord string) :=
  <["A" := recA]> (<["B" := recB]> ∅).

(** The input file of the end-to-end scenario: the prompts A, B and C. *)
Definition three_prompts : list string :=
  [input_line "A"; input_line "B"; input_line "C"].

Definition run (remote : nat -> Request Q -> Result (Response string))
    (a : Args Q) (fin : list string) : Eff unit :=
  main remote clock model_name json_dumps json_loads json_loads_prompt a fin.

End Scenario.

(** The world [w] with the output file holding the lines [out]. *)
Definition set_output (w : World) (out : list string) : World :=
  mkWorld (calls w) (sleeps w) (ticks w) (Some out).

(** [recs] are the records stored in [existing] for the prompts [ps], in
    the order of [ps]. *)
Definition replayed {Choice : Type} (existing : gmap string (ResultRecord Choice))
    (ps : list string) (recs : list (ResultRecord Choice)) : Prop :=
  Forall2 (fun p r => existing !! p = Some r) ps recs.

(** The prompts of the batches at the given offsets, batch after batch. *)
Definition covered (prompts : list string) (batch_size : Z)
    (offsets : list Z) : list string :=
  concat (map (fun i => Py.slice prompts i (i + batch_size)) offsets).

(** Every key of the store is the prompt of the record stored under it. *)
Definition keyed {Choice : Type} (existing : gmap string (ResultRecord Choice))
  : Prop :=
  forall k r, existing !! k = Some r -> prompt r = k.

(** ** Module-level configuration (lines 22-26) *)

Module Config.

Definition default_base_url : string := "https://api.openai.com/v1".

Definition default_model_name : string := "gpt-4o".

(** A string is truthy when it is not empty. *)
Definition truthy (s : string) : bool :=
  match s with EmptyString => false | String _ _ => true end.

(** Lines 22-23: [os.getenv("OPENAI_BASE_URL") if
    os.getenv("OPENAI_BASE_URL") else "https://api.openai.com/v1"]; the test
    is the truth value of the variable. *)
Definition openai_base_url (getenv : string -> option string) : string :=
  match getenv "OPENAI_BASE_URL" with
  | Some s => if truthy s then s else default_base_url
  | None => default_base_url
  end.

(** Lines 25-26: [os.getenv("OPENAI_MODEL_NAME") if
    os.getenv("OPENAI_MODEL_NAME") is not None else "gpt-4o"]; the test is
    whether the variable is set. *)
Definition model_name (getenv : string -> option string) : string :=
  match getenv "OPENAI_MODEL_NAME" with
  | Some s => s
  | None => default_model_name
  end.

End Config.

(** The same command line with another [--request_batch_size]. *)
Definition with_batch_size {Float : Type} (args : Args Float) (batch_size : Z)
  : Args Float :=
  mkArgs (input_file args) (engine args) (generation args) (args_n args)
    (use_existing_responses args) batch_size.

(** Further concrete values. *)

Module Cases.

(** An environment that sets both variables to the empty string. *)
Definition empty_env (name : string) : option string :=
  if String.eqb name "OPENAI_BASE_URL" then Some EmptyString
  else if String.eqb name "OPENAI_MODEL_NAME" then Some EmptyString
  else None.

(** A response with fewer choices than two prompts with [n = 2] need. *)
Definition short_answer : Response string := mkResponse "cmpl-2" ["c0"; "c1"].

(** A line that is no JSON document. *)
Definition broken_line : string := ("{not json" ++ nl)%string.

(** A later document for the prompt A, and a codec that also knows it. *)
Definition recA' : ResultRecord string := mkRecord "A" None "t9".

Definition json_loads (line : string) : Result (ResultRecord string) :=
  match List.find
          (fun d => String.eqb (Scenario.json_dumps d ++ nl) line)
          (Scenario.documents ++ [recA']) with
  | Some d => Ok d
  | None => Raise JSONDecodeError
  end.

(** An input file in which the prompt A occurs twice. *)
Definition repeated_prompts : list string :=
  [Scenario.input_line "A"; Scenario.input_line "B"; Scenario.input_line "A"].

(** An input file with a fourth prompt, which no document answers. *)
Definition four_prompts : list string :=
  [Scenario.input_line "A"; Scenario.input_line "B"; Scenario.input_line "C";
   Scenario.input_line "D"].

(** A world whose output file has a good line followed by a broken
    one. *)
Definition corrupt : World :=
  mkWorld 0 [] 0
    (Some [record_line Scenario.json_dumps Scenario.recA; broken_line]).

End Cases.
(** * Properties *)

(** ** Slices and ranges *)

Lemma clip_nonneg (len i : Z) :
  (0 <= len)%Z -> (0 <= i)%Z -> Py.clip len i = Z.min i len.
Proof.
  intros Hlen Hi. unfold Py.clip.
  destruct (Z.ltb_spec i 0); [lia | reflexivity].
Qed.

(** Element [i] of [l[a:b]] for [0 <= a <= b]: element [a + i] of [l] when
    [i < b - a], and nothing beyond. *)
Lemma slice_lookup {A} (l : list A) (a b : Z) (i : nat) :
  (0 <= a)%Z -> (a <= b)%Z ->
  Py.slice l a b !! i =
    if (Z.of_nat i <? b - a)%Z then l !! (Z.to_nat a + i)%nat else None.
Proof.
  intros Ha Hab. unfold Py.slice.
  rewrite !clip_nonneg by lia.
  destruct (Z.ltb_spec (Z.of_nat i) (b - a)) as [Hi | Hi].
  - destruct (Nat.lt_ge_cases (Z.to_nat a + i) (List.length l)) as [Hin | Hout].
    + rewrite lookup_take_lt by lia.
      rewrite lookup_drop. f_equal. lia.
    + rewrite (proj2 (lookup_ge_None l (Z.to_nat a + i)%nat)) by lia.
      apply lookup_ge_None. rewrite length_take, length_drop. lia.
  - apply lookup_ge_None. rewrite length_take, length_drop. lia.
Qed.

Lemma slice_length {A} (l : list A) (a b : Z) :
  (0 <= a)%Z -> (a <= b)%Z -> (b <= Z.of_nat (List.length l))%Z ->
  List.length (Py.slice l a b) = Z.to_nat (b - a).
Proof.
  intros Ha Hab Hb. unfold Py.slice.
  rewrite !clip_nonneg by lia.
  rewrite length_take, length_drop. lia.
Qed.

(** For a positive step the slice at offset [k * S] is the [k]-th chunk. *)
Lemma slice_chunk {A} (l : list A) (S0 : Z) (k : nat) :
  (0 < S0)%Z ->
  Py.slice l (0 + Z.of_nat k * S0) (0 + Z.of_nat k * S0 + S0) =
    take (Z.to_nat S0) (drop (k * Z.to_nat S0) l).
Proof.
  intros HS. apply list_eq. intros i.
  rewrite slice_lookup by nia.
  destruct (Z.ltb_spec (Z.of_nat i) (0 + Z.of_nat k * S0 + S0 - (0 + Z.of_nat k * S0))).
  - rewrite lookup_take_lt by lia. rewrite lookup_drop. f_equal. nia.
  - symmetry. apply lookup_take_ge. lia.
Qed.

Lemma concat_chunks {A} (c m : nat) :
  forall l : list A,
    (0 < c)%nat -> (List.length l <= m * c)%nat ->
    concat (map (fun k => take c (drop (k * c) l)) (seq 0 m)) = l.
Proof.
  induction m as [| m IH]; intros l Hc Hlen.
  - destruct l; [reflexivity | simpl in Hlen; lia].
  - rewrite <- cons_seq, <- seq_shift. cbn [map concat].
    rewrite map_map, Nat.mul_0_l, drop_0.
    transitivity (take c l ++ drop c l); [| apply take_drop].
    f_equal.
    transitivity
      (concat (map (fun k => take c (drop (k * c) (drop c l))) (seq 0 m))).
    + f_equal. apply map_ext. intros k.
      rewrite drop_drop. f_equal; f_equal; lia.
    + apply IH; [exact Hc |]. rewrite length_drop. lia.
Qed.

Lemma range_len_pos (n s : Z) :
  (0 <= n)%Z -> (0 < s)%Z ->
  (0 <= Py.range_len 0 n s)%Z /\ (n <= Py.range_len 0 n s * s)%Z /\
  ((0 < Py.range_len 0 n s)%Z -> ((Py.range_len 0 n s - 1) * s < n)%Z).
Proof.
  intros Hn Hs. unfold Py.range_len.
  destruct (Z.ltb_spec 0 s); [| lia].
  destruct (Z.ltb_spec 0 n).
  - replace (n - 0 - 1)%Z with (n - 1)%Z by lia.
    pose proof (Z.div_mod (n - 1) s ltac:(lia)) as Hdm.
    pose proof (Z.mod_pos_bound (n - 1) s Hs) as Hm.
    assert (0 <= (n - 1) / s)%Z by (apply Z.div_pos; lia).
    nia.
  - lia.
Qed.

(** The built-ins on the values that the script meets. *)

Example slice_middle : Py.slice [10; 20; 30; 40; 50; 60] 2 4 = [30; 40].
Proof. reflexivity. Qed.

Example slice_past_end : Py.slice [10; 20; 30] 2 4 = [30].
Proof. reflexivity. Qed.

Example slice_negative : Py.slice [10; 20; 30] (-2) 3 = [20; 30].
Proof. reflexivity. Qed.

Example range_step_2 : Py.range 0 5 2 = Ok [0; 2; 4]%Z.
Proof. reflexivity. Qed.

Example range_step_back : Py.range 5 0 (-2) = Ok [5; 3; 1]%Z.
Proof. reflexivity. Qed.

Example range_step_negative : Py.range 0 5 (-2) = Ok [].
Proof. reflexivity. Qed.

Example endswith_jsonl :
  Py.endswith "prompts.jsonl" ".jsonl" = true /\
  Py.endswith "prompts.txt" ".jsonl" = false /\
  Py.endswith "jsonl" ".jsonl" = false.
Proof. repeat split; reflexivity. Qed.

Example strip_and_unescape :
  Py.replace_backslash_n (Py.strip Scenario.text_line) =
    ("first" ++ nl ++ "second")%string.
Proof. reflexivity. Qed.

(** ** make_requests *)

Section ExecutorLemmas.

Context {Choice Float : Type}.
Variable remote : nat -> Request Float -> Result (Response Choice).
Variable clock : nat -> string.
Variable model_name : string.

Lemma results_loop_spec (resp : option (Response Choice)) (n : Z) :
  forall (prompts : list string) (j : Z) (results : list (ResultRecord Choice))
         (w : World),
    results_loop clock resp n j prompts results w =
      (mkWorld (calls w) (sleeps w) (ticks w + List.length prompts)
         (output_file w),
       Ok (results ++ records_from clock resp n j (ticks w) prompts)).
Proof.
  induction prompts as [| p ps IH]; intros j results w.
  - simpl. unfold ret. rewrite Nat.add_0_r, app_nil_r.
    destruct w; reflexivity.
  - cbn [results_loop records_from]. unfold bind, datetime_now.
    rewrite IH. cbn [calls sleeps ticks output_file List.length].
    rewrite <- app_assoc. cbn [app].
    do 2 f_equal. lia.
Qed.

Lemma records_from_lookup (resp : option (Response Choice)) (n : Z) :
  forall (prompts : list string) (j : Z) (t i : nat) (p : string),
    prompts !! i = Some p ->
    records_from clock resp n j t prompts !! i =
      Some (mkRecord p (field_at resp n (j + Z.of_nat i)) (clock (t + i))).
Proof.
  induction prompts as [| q ps IH]; intros j t i p Hp.
  - discriminate.
  - destruct i as [| i].
    + injection Hp as ->. cbn. rewrite Z.add_0_r, Nat.add_0_r. reflexivity.
    + cbn in Hp. cbn [records_from]. cbn [lookup list_lookup].
      change ((records_from clock resp n (j + 1) (S t) ps) !! i =
              Some (mkRecord p (field_at resp n (j + Z.of_nat (S i)))
                      (clock (t + S i)))).
      rewrite (IH _ _ _ _ Hp). do 3 f_equal; lia.
Qed.

Lemma records_from_prompts (resp : option (Response Choice)) (n : Z) :
  forall (prompts : list string) (j : Z) (t : nat),
    map prompt (records_from clock resp n j t prompts) = prompts.
Proof.
  induction prompts as [| q ps IH]; intros j t; cbn; [| rewrite IH]; reflexivity.
Qed.

(** What [make_requests] does when the loop is entered ([0 <= retries]):
    one invocation of the endpoint, whose exception, if any, leaves the
    function. *)
Lemma make_requests_entered (prompts : Prompts) (g : Generation Float)
    (n retries : Z) (w : World) :
  (0 <= retries)%Z ->
  make_requests remote clock model_name prompts g n retries w =
    match remote (calls w) (request_of model_name prompts g n) with
    | Ok r =>
        let w1 := mkWorld (S (calls w)) (sleeps w) (ticks w) (output_file w) in
        match prompts with
        | PList l =>
            (mkWorld (S (calls w)) (sleeps w) (ticks w + List.length l)
               (output_file w),
             Ok (records_from clock (Some r) n 0 (ticks w) l))
        | PStr s =>
            (mkWorld (S (calls w)) (sleeps w) (S (ticks w)) (output_file w),
             Ok [mkRecord s (Some (Whole r)) (clock (ticks w))])
        end
    | Raise e =>
        (mkWorld (S (calls w)) (sleeps w) (ticks w) (output_file w), Raise e)
    end.
Proof.
  intros Hr. unfold make_requests, request_loop, bind.
  destruct (Z.leb_spec 0 retries) as [_ | Hlt]; [| lia].
  unfold completions_create.
  destruct (remote (calls w) _) as [r | e]; [| reflexivity].
  unfold ret. destruct prompts as [s | l].
  - reflexivity.
  - rewrite results_loop_spec. reflexivity.
Qed.

(** With a negative [retries] the loop is not entered: no invocation, and
    every record carries [None]. *)
Lemma make_requests_skipped (prompts : Prompts) (g : Generation Float)
    (n retries : Z) (w : World) :
  (retries < 0)%Z ->
  make_requests remote clock model_name prompts g n retries w =
    match prompts with
    | PList l =>
        (mkWorld (calls w) (sleeps w) (ticks w + List.length l) (output_file w),
         Ok (records_from clock None n 0 (ticks w) l))
    | PStr s =>
        (mkWorld (calls w) (sleeps w) (S (ticks w)) (output_file w),
         Ok [mkRecord s None (clock (ticks w))])
    end.
Proof.
  intros Hr. unfold make_requests, request_loop, bind.
  destruct (Z.leb_spec 0 retries) as [Hge | _]; [lia |].
  unfold ret. destruct prompts as [s | l].
  - reflexivity.
  - rewrite results_loop_spec. reflexivity.
Qed.

End ExecutorLemmas.

Section ExecutorClaims.

Context {Choice Float : Type}.
Variable remote : nat -> Request Float -> Result (Response Choice).
Variable clock : nat -> string.
Variable model_name : string.

(** C9. Called with a single prompt string, and the endpoint answering
    [r], [make_requests] returns a list of one record: the prompt, the
    response object [r] itself, whole and unsliced, and the time read
    when the record is built. *)
Theorem make_requests_single_prompt (s : string) (g : Generation Float)
    (n retries : Z) (w : World) (r : Response Choice) :
  (0 <= retries)%Z ->
  remote (calls w) (request_of model_name (PStr s) g n) = Ok r ->
  make_requests remote clock model_name (PStr s) g n retries w =
    (mkWorld (S (calls w)) (sleeps w) (S (ticks w)) (output_file w),
     Ok [mkRecord s (Some (Whole r)) (clock (ticks w))]).
Proof.
  intros Hr Hok. rewrite make_requests_entered by exact Hr.
  rewrite Hok. reflexivity.
Qed.

(** C10. For any two values of [retries] that are at least 0 and the same
    endpoint, [make_requests] gives the same result and the same final
    world; it invokes the endpoint exactly once and performs no wait. *)
Theorem make_requests_retries_irrelevant (prompts : Prompts)
    (g : Generation Float) (n r1 r2 : Z) (w : World) :
  (0 <= r1)%Z -> (0 <= r2)%Z ->
  make_requests remote clock model_name prompts g n r1 w =
    make_requests remote clock model_name prompts g n r2 w /\
  calls (fst (make_requests remote clock model_name prompts g n r1 w)) =
    S (calls w) /\
  sleeps (fst (make_requests remote clock model_name prompts g n r1 w)) =
    sleeps w.
Proof.
  intros H1 H2. rewrite !make_requests_entered by assumption.
  destruct (remote (calls w) _) as [r | e]; [destruct prompts |]; auto.
Qed.

(** C4. For a list of prompts, [n >= 0] completions per prompt and an
    endpoint answering [r], the record at index [j] carries the prompt at
    index [j] and the slice [cs] of [r.choices] whose element [i] is
    element [j * n + i] of [r.choices] for [i < n], with nothing after it;
    when [r.choices] has [len(prompts) * n] elements the slice has exactly
    [n]. *)
Theorem make_requests_slices (prompts : list string) (g : Generation Float)
    (n retries : Z) (w : World) (r : Response Choice) (j : nat) (p : string) :
  (0 <= retries)%Z ->
  (0 <= n)%Z ->
  remote (calls w) (request_of model_name (PList prompts) g n) = Ok r ->
  prompts !! j = Some p ->
  exists (w' : World) (results : list (ResultRecord Choice)) (cs : list Choice),
    make_requests remote clock model_name (PList prompts) g n retries w =
      (w', Ok results) /\
    List.length results = List.length prompts /\
    prompt <$> results !! j = Some p /\
    response <$> results !! j = Some (Some (Sliced cs)) /\
    (forall i : nat,
        cs !! i =
          if (Z.of_nat i <? n)%Z
          then choices r !! (j * Z.to_nat n + i)%nat
          else None) /\
    (Z.of_nat (List.length (choices r)) = Z.of_nat (List.length prompts) * n ->
     Z.of_nat (List.length cs) = n)%Z.
Proof.
  intros Hr Hn Hok Hp.
  rewrite make_requests_entered by exact Hr. rewrite Hok.
  eexists _, _, (Py.slice (choices r) (Z.of_nat j * n) ((Z.of_nat j + 1) * n)).
  split; [reflexivity |].
  assert (Hlen : forall (l : list string) a t,
             List.length (records_from clock (Some r) n a t l) = List.length l).
  { induction l as [| q l IH]; intros a t; cbn; [| rewrite IH]; reflexivity. }
  split; [apply Hlen |].
  rewrite (records_from_lookup clock (Some r) n prompts 0 (ticks w) j p Hp).
  cbn [fmap option_fmap option_map prompt response field_at].
  rewrite Z.add_0_l.
  split; [reflexivity |]. split; [reflexivity |]. split.
  - intros i. rewrite slice_lookup by nia.
    replace ((Z.of_nat j + 1) * n - Z.of_nat j * n)%Z with n by lia.
    destruct (Z.of_nat i <? n)%Z; [| reflexivity].
    f_equal. nia.
  - intros Hsize.
    assert (j < List.length prompts)%nat
      by (apply lookup_lt_is_Some; eauto).
    rewrite slice_length by nia. nia.
Qed.

(** C1, evaluated on the code. With a retry budget [R >= 1] and an endpoint
    that fails transiently [R] times before it answers, [make_requests]
    invokes the endpoint once, not [R + 1] times, waits never, and ends by
    raising the first transient error. With an endpoint that always fails
    transiently it does the same: one invocation and an exception that is
    not handled. *)
Theorem make_requests_no_retry (R : nat) (r : Response Choice)
    (prompts : Prompts) (g : Generation Float) (n : Z)
    (out : option (list string)) :
  (1 <= R)%nat ->
  make_requests (fails_then_succeeds R r) clock model_name prompts g n
      (Z.of_nat R) (mkWorld 0 [] 0 out) =
    (mkWorld 1 [] 0 out, Raise (APIError true)) /\
  make_requests (Choice := Choice) always_fails clock model_name prompts g n
      (Z.of_nat R) (mkWorld 0 [] 0 out) =
    (mkWorld 1 [] 0 out, Raise (APIError true)).
Proof.
  intros HR. rewrite !make_requests_entered by lia.
  unfold fails_then_succeeds, always_fails. cbn [calls sleeps ticks output_file].
  destruct (Nat.ltb_spec 0 R); [split; reflexivity | lia].
Qed.

(** C2, evaluated on the code. With an endpoint that always fails
    transiently and any retry budget of at least 0, [make_requests] raises
    after its single invocation: it returns no record, neither one with a
    null response nor any other. *)
Theorem make_requests_failure_leaves (prompts : Prompts)
    (g : Generation Float) (n retries : Z) (w : World) :
  (0 <= retries)%Z ->
  make_requests (Choice := Choice) always_fails clock model_name prompts g n
      retries w =
    (mkWorld (S (calls w)) (sleeps w) (ticks w) (output_file w),
     Raise (APIError true)).
Proof.
  intros Hr. rewrite make_requests_entered by exact Hr. reflexivity.
Qed.

End ExecutorClaims.

Lemma make_requests_single_prompt_witness :
  make_requests (Float := Q) (fails_then_succeeds 0 Scenario.answer)
      Scenario.clock Scenario.model_name (PStr "p0") Scenario.generation 2 3
      Scenario.fresh =
    (mkWorld 1 [] 1 None, Ok [mkRecord "p0" (Some (Whole Scenario.answer)) "t0"]).
Proof.
  apply (make_requests_single_prompt (fails_then_succeeds 0 Scenario.answer)
           Scenario.clock Scenario.model_name "p0" Scenario.generation 2 3
           Scenario.fresh Scenario.answer); [lia | reflexivity].
Defined.

Lemma make_requests_retries_irrelevant_witness :
  make_requests (Float := Q) (fails_then_succeeds 0 Scenario.answer)
      Scenario.clock Scenario.model_name (PList ["p0"; "p1"; "p2"])
      Scenario.generation 2 0 Scenario.fresh =
    make_requests (fails_then_succeeds 0 Scenario.answer)
      Scenario.clock Scenario.model_name (PList ["p0"; "p1"; "p2"])
      Scenario.generation 2 3 Scenario.fresh /\
  calls (fst (make_requests (Float := Q) (fails_then_succeeds 0 Scenario.answer)
                Scenario.clock Scenario.model_name (PList ["p0"; "p1"; "p2"])
                Scenario.generation 2 0 Scenario.fresh)) =
    S (calls Scenario.fresh) /\
  sleeps (fst (make_requests (Float := Q) (fails_then_succeeds 0 Scenario.answer)
                 Scenario.clock Scenario.model_name (PList ["p0"; "p1"; "p2"])
                 Scenario.generation 2 0 Scenario.fresh)) =
    sleeps Scenario.fresh.
Proof.
  apply (make_requests_retries_irrelevant
           (fails_then_succeeds 0 Scenario.answer) Scenario.clock
           Scenario.model_name (PList ["p0"; "p1"; "p2"]) Scenario.generation
           2 0 3 Scenario.fresh); lia.
Defined.

Lemma make_requests_slices_witness :
  exists (w' : World) (results : list (ResultRecord string)) (cs : list string),
    make_requests (Float := Q) (fails_then_succeeds 0 Scenario.answer)
        Scenario.clock Scenario.model_name (PList ["p0"; "p1"; "p2"])
        Scenario.generation 2 3 Scenario.fresh = (w', Ok results) /\
    List.length results = 3%nat /\
    prompt <$> results !! 1%nat = Some "p1" /\
    response <$> results !! 1%nat = Some (Some (Sliced cs)) /\
    (forall i : nat,
        cs !! i =
          if (Z.of_nat i <? 2)%Z
          then choices Scenario.answer !! (1 * Z.to_nat 2 + i)%nat
          else None) /\
    (Z.of_nat (List.length (choices Scenario.answer)) = Z.of_nat 3 * 2 ->
     Z.of_nat (List.length cs) = 2)%Z.
Proof.
  apply (make_requests_slices (fails_then_succeeds 0 Scenario.answer)
           Scenario.clock Scenario.model_name ["p0"; "p1"; "p2"]
           Scenario.generation 2 3 Scenario.fresh Scenario.answer 1 "p1");
    [lia | lia | reflexivity | reflexivity].
Defined.

Lemma make_requests_no_retry_witness :
  make_requests (Float := Q) (fails_then_succeeds 1 Scenario.answer)
      Scenario.clock Scenario.model_name (PList ["p0"]) Scenario.generation 1
      (Z.of_nat 1) (mkWorld 0 [] 0 None) =
    (mkWorld 1 [] 0 None, Raise (APIError true)) /\
  make_requests (Choice := string) (Float := Q) always_fails
      Scenario.clock Scenario.model_name (PList ["p0"]) Scenario.generation 1
      (Z.of_nat 1) (mkWorld 0 [] 0 None) =
    (mkWorld 1 [] 0 None, Raise (APIError true)).
Proof.
  apply (make_requests_no_retry Scenario.clock Scenario.model_name 1
           Scenario.answer (PList ["p0"]) Scenario.generation 1 None); lia.
Defined.

Lemma make_requests_failure_leaves_witness :
  make_requests (Choice := string) (Float := Q) always_fails Scenario.clock
      Scenario.model_name (PList ["p0"]) Scenario.generation 1 0
      Scenario.fresh =
    (mkWorld 1 [] 0 None, Raise (APIError true)).
Proof.
  apply (make_requests_failure_leaves Scenario.clock Scenario.model_name
           (PList ["p0"]) Scenario.generation 1 0 Scenario.fresh); lia.
Defined.

(** ** The script *)

Lemma set_output_same (w : World) (out : list string) :
  output_file w = Some out -> set_output w out = w.
Proof. destruct w; cbn; intros ->; reflexivity. Qed.

Lemma set_output_twice (w : World) (out out' : list string) :
  set_output (set_output w out) out' = set_output w out'.
Proof. reflexivity. Qed.

Lemma call_keyword_rejected :
  unexpected_keyword make_requests_parameters call_keywords = true.
Proof. reflexivity. Qed.

Section ScriptLemmas.

Context {Choice Float : Type}.
Variable remote : nat -> Request Float -> Result (Response Choice).
Variable clock : nat -> string.
Variable model_name : string.
Variable json_dumps : ResultRecord Choice -> string.
Variable json_loads : string -> Result (ResultRecord Choice).
Variable json_loads_prompt : string -> Result string.

Local Abbreviation store := (gmap string (ResultRecord Choice)).
Local Abbreviation line := (record_line json_dumps).
Local Abbreviation step := (process_batch remote clock model_name json_dumps).

Lemma cached_replayed (existing : store) (ps : list string) :
  forallb (cached existing) ps = true <->
  exists recs, replayed existing ps recs.
Proof.
  unfold replayed. induction ps as [| p ps IH]; cbn.
  - split; [exists []; constructor | reflexivity].
  - rewrite andb_true_iff, IH. unfold cached at 1.
    rewrite bool_decide_eq_true. split.
    + intros [[r Hr] [recs Hrecs]]. exists (r :: recs). constructor; assumption.
    + intros [recs Hrecs]. inversion Hrecs as [| ? r ? recs' Hr Hrest]; subst.
      split; eauto.
Qed.

Lemma replay_writes (existing : store) :
  forall (ps : list string) (recs : list (ResultRecord Choice)) (w : World)
         (out : list string),
    output_file w = Some out ->
    replayed existing ps recs ->
    for_each
      (fun p =>
         match existing !! p with
         | Some data => fout_write (json_dumps data ++ nl)
         | None => raise KeyError
         end) ps w =
      (set_output w (out ++ map line recs), Ok tt).
Proof.
  induction ps as [| p ps IH]; intros recs w out Hout Hrep;
    inversion Hrep as [| ? r ? recs' Hr Hrest]; subst.
  - cbn. unfold ret. rewrite app_nil_r, set_output_same by exact Hout.
    reflexivity.
  - cbn [for_each]. unfold bind. rewrite Hr. unfold fout_write at 1.
    rewrite Hout.
    erewrite IH; [| reflexivity | exact Hrest].
    cbn [map]. unfold set_output. cbn [calls sleeps ticks output_file].
    rewrite <- app_assoc. reflexivity.
Qed.

(** A batch whose prompts are all stored is replayed from the store: the
    stored records are written in batch order and nothing else happens. *)
Lemma process_batch_cached (existing : store) (prompts : list string)
    (args : Args Float) (i : Z) (w : World) (out : list string) :
  output_file w = Some out ->
  forallb (cached existing)
    (Py.slice prompts i (i + request_batch_size args)) = true ->
  exists recs,
    replayed existing (Py.slice prompts i (i + request_batch_size args)) recs /\
    step existing prompts args i w =
      (set_output w (out ++ map line recs), Ok tt).
Proof.
  intros Hout Hall. unfold process_batch. rewrite Hall.
  apply cached_replayed in Hall as [recs Hrecs].
  exists recs. split; [exact Hrecs |].
  apply replay_writes; assumption.
Qed.

(** A batch with a prompt that is not stored reaches the call on lines
    202-214, which raises [TypeError]. *)
Lemma process_batch_uncached (existing : store) (prompts : list string)
    (args : Args Float) (i : Z) (w : World) :
  forallb (cached existing)
    (Py.slice prompts i (i + request_batch_size args)) = false ->
  step existing prompts args i w = (w, Raise TypeError).
Proof.
  intros Hsome. unfold process_batch. rewrite Hsome.
  unfold bind, call_make_requests. rewrite call_keyword_rejected.
  reflexivity.
Qed.

Lemma loop_complete (existing : store) (prompts : list string)
    (args : Args Float) :
  forall (offsets : list Z) (w w' : World) (out : list string),
    output_file w = Some out ->
    for_each (step existing prompts args) offsets w = (w', Ok tt) ->
    exists recs,
      replayed existing
        (covered prompts (request_batch_size args) offsets) recs /\
      w' = set_output w (out ++ map line recs).
Proof.
  induction offsets as [| i offsets IH]; intros w w' out Hout Hrun.
  - cbn in Hrun. injection Hrun as <-. exists []. split; [constructor |].
    cbn. rewrite app_nil_r. symmetry. apply set_output_same, Hout.
  - cbn [for_each] in Hrun. unfold bind in Hrun.
    destruct (forallb (cached existing)
                (Py.slice prompts i (i + request_batch_size args))) eqn:Hall.
    + destruct (process_batch_cached existing prompts args i w out Hout Hall)
        as (recs & Hrecs & Hstep).
      rewrite Hstep in Hrun.
      destruct (IH (set_output w (out ++ map line recs)) w'
                  (out ++ map line recs) eq_refl Hrun) as (recs' & Hrecs' & ->).
      exists (recs ++ recs'). split.
      * unfold covered. cbn [map concat]. apply Forall2_app; assumption.
      * rewrite set_output_twice, map_app, app_assoc. reflexivity.
    + rewrite process_batch_uncached in Hrun by exact Hall. discriminate.
Qed.

Lemma loop_cached (existing : store) (prompts : list string)
    (args : Args Float) :
  forall (offsets : list Z) (recs : list (ResultRecord Choice)) (w : World)
         (out : list string),
    output_file w = Some out ->
    replayed existing (covered prompts (request_batch_size args) offsets) recs ->
    for_each (step existing prompts args) offsets w =
      (set_output w (out ++ map line recs), Ok tt).
Proof.
  induction offsets as [| i offsets IH]; intros recs w out Hout Hrep.
  - inversion Hrep; subst. cbn. unfold ret.
    rewrite app_nil_r, set_output_same by exact Hout. reflexivity.
  - unfold covered in Hrep. cbn [map concat] in Hrep.
    apply Forall2_app_inv_l in Hrep as (recs1 & recs2 & H1 & H2 & ->).
    assert (Hall : forallb (cached existing)
                     (Py.slice prompts i (i + request_batch_size args)) = true)
      by (apply cached_replayed; eauto).
    cbn [for_each]. unfold bind, process_batch at 1. rewrite Hall.
    rewrite (replay_writes existing _ recs1 w out Hout H1).
    rewrite (IH recs2 (set_output w (out ++ map line recs1))
               (out ++ map line recs1) eq_refl H2).
    rewrite set_output_twice, map_app, app_assoc. reflexivity.
Qed.

End ScriptLemmas.

(** ** Batch splitting *)

Lemma range_positive (n s : Z) :
  (0 < s)%Z ->
  Py.range 0 n s =
    Ok (map (fun k => (0 + Z.of_nat k * s)%Z)
          (seq 0 (Z.to_nat (Py.range_len 0 n s)))).
Proof.
  intros Hs. unfold Py.range.
  destruct (Z.eqb_spec s 0); [lia | reflexivity].
Qed.

Lemma range_negative (n s : Z) :
  (0 <= n)%Z -> (s < 0)%Z -> Py.range 0 n s = Ok [].
Proof.
  intros Hn Hs. unfold Py.range, Py.range_len.
  destruct (Z.eqb_spec s 0); [lia |].
  destruct (Z.ltb_spec 0 s); [lia |].
  destruct (Z.ltb_spec n 0); [lia | reflexivity].
Qed.

Lemma range_zero (n : Z) : Py.range 0 n 0 = Raise ValueError.
Proof. reflexivity. Qed.

(** For a positive batch size the batches are the successive chunks. *)
Lemma batches_positive (prompts : list string) (s : Z) :
  (0 < s)%Z ->
  map (fun i => Py.slice prompts i (i + s))
      (map (fun k => (0 + Z.of_nat k * s)%Z)
         (seq 0 (Z.to_nat (Py.range_len 0 (Z.of_nat (List.length prompts)) s)))) =
    map (fun k => take (Z.to_nat s) (drop (k * Z.to_nat s) prompts))
      (seq 0 (Z.to_nat (Py.range_len 0 (Z.of_nat (List.length prompts)) s))).
Proof.
  intros Hs. rewrite map_map. apply map_ext. intros k.
  apply slice_chunk, Hs.
Qed.

Lemma covered_positive (prompts : list string) (s : Z) (offsets : list Z) :
  (0 < s)%Z ->
  Py.range 0 (Z.of_nat (List.length prompts)) s = Ok offsets ->
  covered prompts s offsets = prompts.
Proof.
  intros Hs Hrange. rewrite range_positive in Hrange by exact Hs.
  injection Hrange as <-. unfold covered.
  rewrite batches_positive by exact Hs.
  pose proof (range_len_pos (Z.of_nat (List.length prompts)) s
                ltac:(lia) Hs) as (Hm0 & Hm1 & _).
  apply concat_chunks; [lia |].
  apply Nat2Z.inj_le. rewrite Nat2Z.inj_mul, !Z2Nat.id by lia. exact Hm1.
Qed.

(** C8, as the code has it. For a batch size [S > 0] the batches, joined in
    order, are the prompts; every batch holds between 1 and [S] prompts and
    every batch but the last holds [S]. For [S = 0] splitting raises
    [ValueError]. For [S < 0] splitting raises nothing and gives no batch. *)
Theorem split_batches_spec (prompts : list string) (S0 : Z) :
  ((0 < S0)%Z ->
   exists bs,
     split_batches prompts S0 = Ok bs /\
     concat bs = prompts /\
     (forall (k : nat) (b : list string),
         bs !! k = Some b ->
         (1 <= Z.of_nat (List.length b) <= S0)%Z /\
         ((S k < List.length bs)%nat -> Z.of_nat (List.length b) = S0))) /\
  (S0 = 0%Z -> split_batches prompts S0 = Raise ValueError) /\
  ((S0 < 0)%Z -> split_batches prompts S0 = Ok []).
Proof.
  split; [| split].
  - intros Hs. unfold split_batches. rewrite range_positive by exact Hs.
    rewrite batches_positive by exact Hs.
    pose proof (range_len_pos (Z.of_nat (List.length prompts)) S0
                  ltac:(lia) Hs) as (Hm0 & Hm1 & Hm2).
    set (m := Z.to_nat (Py.range_len 0 (Z.of_nat (List.length prompts)) S0)) in *.
    eexists. split; [reflexivity |]. split.
    + apply concat_chunks; [lia |].
      apply Nat2Z.inj_le. subst m. rewrite Nat2Z.inj_mul, !Z2Nat.id by lia.
      exact Hm1.
    + intros k b Hb.
      rewrite list_lookup_fmap in Hb.
      destruct (seq 0 m !! k) as [k' |] eqn:Hk; [| discriminate].
      apply lookup_seq in Hk as [Ek Hk]. cbn in Ek. subst k'.
      cbn in Hb. injection Hb as <-.
      rewrite length_map, length_seq.
      rewrite length_take, length_drop.
      assert (Hq : Z.of_nat (k * Z.to_nat S0) = (Z.of_nat k * S0)%Z)
        by (rewrite Nat2Z.inj_mul, Z2Nat.id; lia).
      remember (k * Z.to_nat S0)%nat as q eqn:Eq. clear Eq.
      remember (Py.range_len 0 (Z.of_nat (List.length prompts)) S0) as M eqn:EM.
      clear EM.
      assert (Hlast : ((M - 1) * S0 < Z.of_nat (List.length prompts))%Z)
        by (apply Hm2; lia).
      assert (Hk1 : (Z.of_nat k * S0 <= (M - 1) * S0)%Z) by nia.
      split; [lia |]. intros Hnext.
      assert (Hk2 : ((Z.of_nat k + 1) * S0 <= (M - 1) * S0)%Z) by nia.
      lia.
  - intros ->. unfold split_batches. rewrite range_zero. reflexivity.
  - intros Hs. unfold split_batches. rewrite range_negative by lia.
    reflexivity.
Qed.

Lemma split_batches_spec_witness :
  (exists bs,
      split_batches ["A"; "B"; "C"] 2 = Ok bs /\
      concat bs = ["A"; "B"; "C"] /\
      (forall (k : nat) (b : list string),
          bs !! k = Some b ->
          (1 <= Z.of_nat (List.length b) <= 2)%Z /\
          ((S k < List.length bs)%nat -> Z.of_nat (List.length b) = 2%Z))) /\
  split_batches ["A"; "B"; "C"] 0 = Raise ValueError /\
  split_batches ["A"; "B"; "C"] (-1) = Ok [].
Proof.
  split; [| split].
  - apply (proj1 (split_batches_spec ["A"; "B"; "C"] 2)). lia.
  - apply (proj1 (proj2 (split_batches_spec ["A"; "B"; "C"] 0))). reflexivity.
  - apply (proj2 (proj2 (split_batches_spec ["A"; "B"; "C"] (-1)))). lia.
Defined.

(** C8 refuted as stated: with three prompts and batch size [-1], which is
    not above 0, splitting does not fail; it returns the empty sequence of
    batches. *)
Lemma split_batches_negative_no_error :
  split_batches ["A"; "B"; "C"] (-1) = Ok [] /\
  ~ (exists e, split_batches ["A"; "B"; "C"] (-1) = Raise e).
Proof.
  split; [reflexivity |]. intros [e He]. discriminate He.
Qed.

(** ** Runs of the script *)

Lemma Forall2_impl_in {A B} (P Q : A -> B -> Prop) (l : list A) (k : list B) :
  Forall2 P l k ->
  (forall x y, x ∈ l -> y ∈ k -> P x y -> Q x y) ->
  Forall2 Q l k.
Proof.
  induction 1 as [| x y l k Hxy Hrest IH]; intros Himp; constructor.
  - apply Himp; [left | left | exact Hxy].
  - apply IH. intros x' y' Hx Hy. apply Himp; right; assumption.
Qed.

Lemma Forall2_elem_r {A B} (P : A -> B -> Prop) (l : list A) (k : list B) (y : B) :
  Forall2 P l k -> y ∈ k -> exists x, x ∈ l /\ P x y.
Proof.
  induction 1 as [| x y' l k Hxy Hrest IH]; intros Hy.
  - inversion Hy.
  - apply elem_of_cons in Hy as [-> | Hy].
    + exists x. split; [left | exact Hxy].
    + destruct (IH Hy) as (x' & Hx' & HP). exists x'. split; [right |]; assumption.
Qed.

Section RunLemmas.

Context {Choice Float : Type}.
Variable remote : nat -> Request Float -> Result (Response Choice).
Variable clock : nat -> string.
Variable model_name : string.
Variable json_dumps : ResultRecord Choice -> string.
Variable json_loads : string -> Result (ResultRecord Choice).
Variable json_loads_prompt : string -> Result string.

Local Abbreviation store := (gmap string (ResultRecord Choice)).
Local Abbreviation line := (record_line json_dumps).
Local Abbreviation step := (process_batch remote clock model_name json_dumps).
Local Abbreviation run :=
  (main remote clock model_name json_dumps json_loads json_loads_prompt).

Lemma read_existing_keyed :
  forall (lines : list string) (m m' : store),
    read_existing json_loads lines m = Ok m' -> keyed m -> keyed m'.
Proof.
  induction lines as [| l lines IH]; intros m m' Hread Hm.
  - injection Hread as <-. exact Hm.
  - cbn in Hread. destruct (json_loads l) as [data | e]; [| discriminate].
    apply (IH _ _ Hread). intros k r Hk.
    apply lookup_insert_Some in Hk as [[<- <-] | [_ Hk]]; [reflexivity |].
    apply Hm, Hk.
Qed.

Lemma load_existing_world (args : Args Float) (w : World) :
  fst (load_existing_responses json_loads args w) = w.
Proof.
  unfold load_existing_responses.
  destruct (output_file w); [destruct (use_existing_responses args) |];
    reflexivity.
Qed.

Lemma load_existing_keyed (args : Args Float) (w : World) (existing : store) :
  snd (load_existing_responses json_loads args w) = Ok existing ->
  keyed existing.
Proof.
  assert (Hempty : keyed (∅ : store))
    by (intros k r Hk; rewrite lookup_empty in Hk; discriminate).
  unfold load_existing_responses.
  destruct (output_file w) as [lines |];
    [destruct (use_existing_responses args) |]; cbn; intros Hload.
  - eapply read_existing_keyed; eassumption.
  - injection Hload as <-. exact Hempty.
  - injection Hload as <-. exact Hempty.
Qed.

Lemma replayed_prompts (existing : store) (ps : list string)
    (recs : list (ResultRecord Choice)) :
  keyed existing -> replayed existing ps recs -> map prompt recs = ps.
Proof.
  intros Hkeyed. induction 1 as [| p r ps recs Hr Hrest IH]; cbn.
  - reflexivity.
  - rewrite IH, (Hkeyed _ _ Hr). reflexivity.
Qed.

(** Reading back lines that decode to the records they were written for
    inserts these records in order. *)
Lemma read_existing_lines :
  forall (recs : list (ResultRecord Choice)) (m : store),
    (forall r, r ∈ recs -> json_loads (line r) = Ok r) ->
    read_existing json_loads (map line recs) m =
      Ok (fold_left (fun m r => <[prompt r := r]> m) recs m).
Proof.
  induction recs as [| r recs IH]; intros m Hdec.
  - reflexivity.
  - cbn [map read_existing fold_left].
    rewrite (Hdec r) by left.
    apply IH. intros r' Hr'. apply Hdec. right. exact Hr'.
Qed.

Lemma fold_insert_lookup (p : string) (r0 : ResultRecord Choice) :
  forall (recs : list (ResultRecord Choice)) (m : store),
    (forall r, r ∈ recs -> prompt r = p -> r = r0) ->
    (m !! p = Some r0 \/ exists r, r ∈ recs /\ prompt r = p) ->
    fold_left (fun m r => <[prompt r := r]> m) recs m !! p = Some r0.
Proof.
  induction recs as [| r recs IH]; intros m Hsame Hsome.
  - destruct Hsome as [Hm | (r & Hr & _)]; [exact Hm | inversion Hr].
  - cbn [fold_left]. apply IH.
    + intros r' Hr'. apply Hsame. right. exact Hr'.
    + destruct (decide (prompt r = p)) as [Heq | Hne].
      * left. assert (r = r0) as -> by (apply Hsame; [left | exact Heq]).
        rewrite <- Heq. apply lookup_insert_eq.
      * rewrite lookup_insert_ne by exact Hne.
        destruct Hsome as [Hm | (r' & Hr' & Hp')]; [left; exact Hm |].
        apply elem_of_cons in Hr' as [-> | Hr']; [contradiction |].
        right. eauto.
Qed.

(** A store read back from the lines of replayed records replays the same
    records. *)
Lemma replayed_read_back (existing : store) (ps : list string)
    (recs : list (ResultRecord Choice)) (m : store) :
  keyed existing ->
  replayed existing ps recs ->
  replayed (fold_left (fun m r => <[prompt r := r]> m) recs m) ps recs.
Proof.
  intros Hkeyed Hrep.
  apply (Forall2_impl_in _ _ _ _ Hrep). intros p r Hp Hr Hpr.
  apply fold_insert_lookup.
  - intros r' Hr' Hp'.
    destruct (Forall2_elem_r _ _ _ _ Hrep Hr') as (p' & _ & Hp'r').
    rewrite (Hkeyed _ _ Hp'r') in Hp'. subst p'. congruence.
  - right. exists r. split; [exact Hr | apply (Hkeyed _ _ Hpr)].
Qed.

(** The script, step by step. *)
Lemma main_unfold (args : Args Float) (fin : list string) (w : World) :
  run args fin w =
    match snd (load_existing_responses json_loads args w) with
    | Raise e => (w, Raise e)
    | Ok existing =>
        match read_input json_loads_prompt args fin with
        | Raise e => (w, Raise e)
        | Ok names =>
            match all_prompts names with
            | None => (set_output w [], Raise NameError)
            | Some ps =>
                match Py.range 0 (Z.of_nat (List.length ps))
                        (request_batch_size args) with
                | Raise e => (set_output w [], Raise e)
                | Ok offsets =>
                    for_each (step existing ps args) offsets (set_output w [])
                end
            end
        end
    end.
Proof.
  unfold main, bind.
  pose proof (load_existing_world args w) as Hw.
  destruct (load_existing_responses json_loads args w) as [w0 [existing | e]];
    cbn in Hw; subst w0; cbn [snd]; [| reflexivity].
  unfold lift at 1.
  destruct (read_input json_loads_prompt args fin) as [names | e];
    [| reflexivity].
  unfold open_w at 1. fold (set_output w []).
  destruct (all_prompts names) as [ps |]; cbn [read_name]; [| reflexivity].
  unfold ret at 1, lift at 1.
  destruct (Py.range 0 (Z.of_nat (List.length ps)) (request_batch_size args));
    reflexivity.
Qed.

Lemma read_input_jsonl (args : Args Float) (fin : list string)
    (names : Names) (ps : list string) :
  read_input json_loads_prompt args fin = Ok names ->
  all_prompts names = Some ps ->
  Py.endswith (input_file args) ".jsonl" = true /\
  comprehension json_loads_prompt fin = Ok ps /\
  names = mkNames (Some ps) None.
Proof.
  unfold read_input.
  destruct (Py.endswith (input_file args) ".jsonl").
  - destruct (comprehension json_loads_prompt fin) as [ps' | e];
      [| discriminate].
    intros [= <-] [= <-]. repeat split; reflexivity.
  - intros [= <-]. discriminate.
Qed.

(** What a run that ends without an exception has done. *)
Lemma main_complete (args : Args Float) (fin : list string) (w w' : World) :
  run args fin w = (w', Ok tt) ->
  exists (existing : store) (ps : list string) (offsets : list Z)
         (recs : list (ResultRecord Choice)),
    snd (load_existing_responses json_loads args w) = Ok existing /\
    read_input json_loads_prompt args fin = Ok (mkNames (Some ps) None) /\
    comprehension json_loads_prompt fin = Ok ps /\
    Py.range 0 (Z.of_nat (List.length ps)) (request_batch_size args) =
      Ok offsets /\
    replayed existing (covered ps (request_batch_size args) offsets) recs /\
    w' = set_output w (map line recs).
Proof.
  rewrite main_unfold. intros Hrun.
  destruct (snd (load_existing_responses json_loads args w))
    as [existing | e]; [| discriminate].
  destruct (read_input json_loads_prompt args fin) as [names | e] eqn:Hin;
    [| discriminate].
  destruct (all_prompts names) as [ps |] eqn:Hps; [| discriminate].
  destruct (Py.range 0 (Z.of_nat (List.length ps)) (request_batch_size args))
    as [offsets | e] eqn:Hrange; [| discriminate].
  destruct (loop_complete remote clock model_name json_dumps existing ps args
              offsets (set_output w []) w' [] eq_refl Hrun)
    as (recs & Hrecs & ->).
  destruct (read_input_jsonl args fin names ps Hin Hps) as (Hext & Hcomp & ->).
  exists existing, ps, offsets, recs.
  repeat split; try assumption; reflexivity.
Qed.

End RunLemmas.

Section RunClaims.

Context {Choice Float : Type}.
Variable remote : nat -> Request Float -> Result (Response Choice).
Variable clock : nat -> string.
Variable model_name : string.
Variable json_dumps : ResultRecord Choice -> string.
Variable json_loads : string -> Result (ResultRecord Choice).
Variable json_loads_prompt : string -> Result string.

Local Abbreviation store := (gmap string (ResultRecord Choice)).
Local Abbreviation line := (record_line json_dumps).
Local Abbreviation step := (process_batch remote clock model_name json_dumps).
Local Abbreviation run :=
  (main remote clock model_name json_dumps json_loads json_loads_prompt).

(** C3, as the code has it. With a batch size above 0, a run that ends
    without an exception leaves an output file with exactly one line per
    prompt of the input, in the order of the input: the lines are those of
    records [recs] whose prompts, in order, are the prompts read from the
    input file. The records that [make_requests] returns for a list of
    prompts are likewise one per prompt, in order. *)
Theorem complete_run_one_record_per_prompt (args : Args Float)
    (fin : list string) (w w' : World) :
  (0 < request_batch_size args)%Z ->
  run args fin w = (w', Ok tt) ->
  (exists (ps : list string) (recs : list (ResultRecord Choice)),
      comprehension json_loads_prompt fin = Ok ps /\
      output_file w' = Some (map line recs) /\
      map prompt recs = ps /\
      List.length (map line recs) = List.length ps) /\
  (forall (l : list string) (g : Generation Float) (n retries : Z)
          (w0 w1 : World) (results : list (ResultRecord Choice)),
      make_requests remote clock model_name (PList l) g n retries w0 =
        (w1, Ok results) ->
      map prompt results = l).
Proof.
  intros Hsize Hrun. split.
  - destruct (main_complete _ _ _ _ _ _ _ _ _ _ Hrun)
      as (existing & ps & offsets & recs & Hload & _ & Hcomp & Hrange & Hrep & ->).
    rewrite (covered_positive _ _ _ Hsize Hrange) in Hrep.
    apply load_existing_keyed in Hload.
    pose proof (replayed_prompts existing ps recs Hload Hrep) as Hprompts.
    exists ps, recs. repeat split; try assumption.
    rewrite length_map, <- Hprompts, length_map. reflexivity.
  - intros l g n retries w0 w1 results Hcall.
    destruct (Z.le_gt_cases 0 retries) as [Hge | Hlt].
    + rewrite make_requests_entered in Hcall by exact Hge.
      destruct (remote (calls w0) _); [| discriminate].
      injection Hcall as _ <-. apply records_from_prompts.
    + rewrite make_requests_skipped in Hcall by exact Hlt.
      injection Hcall as _ <-. apply records_from_prompts.
Qed.

(** C5, evaluated on the code. A batch whose prompts are all in the store
    has its stored records written in batch order, and the endpoint is not
    invoked. A batch with a prompt missing from the store is not
    dispatched: the call of [make_requests] raises [TypeError], nothing is
    written and the endpoint is not invoked. *)
Theorem process_batch_dispatch (existing : store) (prompts : list string)
    (args : Args Float) (i : Z) (w : World) (out : list string) :
  output_file w = Some out ->
  (forallb (cached existing)
     (Py.slice prompts i (i + request_batch_size args)) = true ->
   exists recs,
     replayed existing
       (Py.slice prompts i (i + request_batch_size args)) recs /\
     step existing prompts args i w =
       (mkWorld (calls w) (sleeps w) (ticks w) (Some (out ++ map line recs)),
        Ok tt)) /\
  (forallb (cached existing)
     (Py.slice prompts i (i + request_batch_size args)) = false ->
   step existing prompts args i w = (w, Raise TypeError)).
Proof.
  intros Hout. split; intros Hall.
  - apply process_batch_cached; assumption.
  - apply process_batch_uncached; assumption.
Qed.

(** C6. Let a first run end without an exception, and let every record
    that it loaded from the output file it found decode from the line
    that [json.dumps] gives for it. Then a second run on the output file
    that the first run left, with resumption enabled and the same input,
    ends without an exception, leaves the same lines in the output file
    and invokes the endpoint not once. *)
Theorem resumed_run_idempotent (args : Args Float) (fin : list string)
    (w0 w1 : World) (existing : store) :
  run args fin w0 = (w1, Ok tt) ->
  snd (load_existing_responses json_loads args w0) = Ok existing ->
  (forall p r, existing !! p = Some r -> json_loads (line r) = Ok r) ->
  exists (w2 : World) (out : list string),
    run (with_resumption args) fin w1 = (w2, Ok tt) /\
    output_file w1 = Some out /\
    output_file w2 = Some out /\
    calls w2 = calls w1.
Proof.
  intros Hrun Hstore Hdec.
  destruct (main_complete _ _ _ _ _ _ _ _ _ _ Hrun)
    as (existing' & ps & offsets & recs & Hload & Hin & _ & Hrange & Hrep & ->).
  rewrite Hstore in Hload. injection Hload as <-.
  apply load_existing_keyed in Hstore.
  exists (set_output w0 (map line recs)), (map line recs).
  split; [| repeat split; reflexivity].
  rewrite main_unfold.
  unfold load_existing_responses. cbn [output_file set_output
    use_existing_responses with_resumption snd].
  rewrite read_existing_lines.
  2: { intros r Hr.
       destruct (Forall2_elem_r _ _ _ _ Hrep Hr) as (p & _ & Hp).
       apply (Hdec p r Hp). }
  change (read_input json_loads_prompt (with_resumption args) fin)
    with (read_input json_loads_prompt args fin).
  rewrite Hin. cbn [all_prompts request_batch_size with_resumption].
  rewrite Hrange.
  rewrite (loop_cached remote clock model_name json_dumps
             (fold_left (fun m r => <[prompt r := r]> m) recs ∅) ps
             (with_resumption args) offsets recs
             (set_output (set_output w0 (map line recs)) []) [] eq_refl).
  - reflexivity.
  - apply (replayed_read_back existing); assumption.
Qed.

(** C7, evaluated on the code. When the name of the input file does not
    end in [.jsonl], the lines of the file, stripped and with every
    backslash-n turned into a line feed, are bound to the name
    [all_prompt]; the name [all_prompts] that the loop reads is not bound,
    and the run ends with [NameError] after it has emptied the output
    file: no prompt is batched or processed. *)
Theorem main_text_input_raises (args : Args Float) (fin : list string)
    (w : World) (existing : store) :
  Py.endswith (input_file args) ".jsonl" = false ->
  snd (load_existing_responses json_loads args w) = Ok existing ->
  read_input json_loads_prompt args fin =
    Ok (mkNames None
          (Some (map (fun l => Py.replace_backslash_n (Py.strip l)) fin))) /\
  run args fin w = (set_output w [], Raise NameError).
Proof.
  intros Hext Hload.
  assert (Hin : read_input json_loads_prompt args fin =
                Ok (mkNames None
                      (Some (map (fun l => Py.replace_backslash_n (Py.strip l))
                               fin))))
    by (unfold read_input; rewrite Hext; reflexivity).
  split; [exact Hin |].
  rewrite main_unfold, Hload, Hin. reflexivity.
Qed.

End RunClaims.

(** ** The claims at concrete inputs *)

Lemma complete_run_one_record_per_prompt_witness :
  (exists (ps : list string) (recs : list (ResultRecord string)),
      comprehension Scenario.json_loads_prompt
        [Scenario.input_line "A"; Scenario.input_line "B";
         Scenario.input_line "C"] = Ok ps /\
      output_file
        (set_output Scenario.resumed
           (map (record_line Scenario.json_dumps) Scenario.documents)) =
        Some (map (record_line Scenario.json_dumps) recs) /\
      map prompt recs = ps /\
      List.length (map (record_line Scenario.json_dumps) recs) = List.length ps) /\
  (forall (l : list string) (g : Generation Q) (n retries : Z)
          (w0 w1 : World) (results : list (ResultRecord string)),
      make_requests always_fails Scenario.clock Scenario.model_name (PList l)
        g n retries w0 = (w1, Ok results) ->
      map prompt results = l).
Proof.
  apply (complete_run_one_record_per_prompt always_fails Scenario.clock
           Scenario.model_name Scenario.json_dumps Scenario.json_loads
           Scenario.json_loads_prompt (Scenario.args "in.jsonl" true 2)
           [Scenario.input_line "A"; Scenario.input_line "B";
            Scenario.input_line "C"]
           Scenario.resumed
           (set_output Scenario.resumed
              (map (record_line Scenario.json_dumps) Scenario.documents)));
    [cbn; lia | vm_compute; reflexivity].
Defined.

(** C3 refuted as stated: with the one prompt [A] in the input and batch
    size [-1], the run ends without an exception and the output file is
    empty, so that one input prompt has no record. *)
Lemma negative_batch_size_empty_output :
  comprehension Scenario.json_loads_prompt [Scenario.input_line "A"] =
    Ok ["A"] /\
  Scenario.run always_fails (Scenario.args "in.jsonl" false (-1))
      [Scenario.input_line "A"] Scenario.fresh =
    (mkWorld 0 [] 0 (Some []), Ok tt).
Proof.
  split; vm_compute; reflexivity.
Qed.

Lemma process_batch_dispatch_witness :
  forallb (cached Scenario.half_store)
    (Py.slice ["A"; "B"; "C"; "D"] 0 (0 + 4)) = false /\
  process_batch (Float := Q) always_fails Scenario.clock Scenario.model_name
      Scenario.json_dumps Scenario.half_store ["A"; "B"; "C"; "D"]
      (Scenario.args "in.jsonl" true 4) 0 (mkWorld 0 [] 0 (Some [])) =
    (mkWorld 0 [] 0 (Some []), Raise TypeError).
Proof.
  split; [vm_compute; reflexivity |].
  apply (proj2 (process_batch_dispatch always_fails Scenario.clock
                  Scenario.model_name Scenario.json_dumps Scenario.half_store
                  ["A"; "B"; "C"; "D"] (Scenario.args "in.jsonl" true 4) 0
                  (mkWorld 0 [] 0 (Some [])) [] eq_refl)).
  vm_compute; reflexivity.
Defined.

Lemma main_text_input_raises_witness :
  read_input (Float := Q) Scenario.json_loads_prompt
      (Scenario.args "prompts.txt" false 2) [Scenario.text_line] =
    Ok (mkNames None
          (Some (map (fun l => Py.replace_backslash_n (Py.strip l))
                   [Scenario.text_line]))) /\
  Scenario.run always_fails (Scenario.args "prompts.txt" false 2)
      [Scenario.text_line] Scenario.fresh =
    (set_output Scenario.fresh [], Raise NameError).
Proof.
  apply (main_text_input_raises always_fails Scenario.clock Scenario.model_name
           Scenario.json_dumps Scenario.json_loads Scenario.json_loads_prompt
           (Scenario.args "prompts.txt" false 2) [Scenario.text_line]
           Scenario.fresh ∅); reflexivity.
Defined.

Lemma resumed_run_idempotent_witness :
  exists (w2 : World) (out : list string),
    Scenario.run always_fails
        (with_resumption (Scenario.args "in.jsonl" true 2))
        Scenario.three_prompts
        (set_output Scenario.resumed
           (map (record_line Scenario.json_dumps) Scenario.documents)) =
      (w2, Ok tt) /\
    output_file
      (set_output Scenario.resumed
         (map (record_line Scenario.json_dumps) Scenario.documents)) =
      Some out /\
    output_file w2 = Some out /\
    calls w2 =
      calls (set_output Scenario.resumed
               (map (record_line Scenario.json_dumps) Scenario.documents)).
Proof.
  apply (resumed_run_idempotent always_fails Scenario.clock Scenario.model_name
           Scenario.json_dumps Scenario.json_loads Scenario.json_loads_prompt
           (Scenario.args "in.jsonl" true 2) Scenario.three_prompts
           Scenario.resumed
           (set_output Scenario.resumed
              (map (record_line Scenario.json_dumps) Scenario.documents))
           Scenario.full_store).
  - vm_compute; reflexivity.
  - vm_compute; reflexivity.
  - intros p r Hr. unfold Scenario.full_store in Hr.
    apply lookup_insert_Some in Hr as [[_ <-] | [_ Hr]]; [reflexivity |].
    apply lookup_insert_Some in Hr as [[_ <-] | [_ Hr]]; [reflexivity |].
    apply lookup_insert_Some in Hr as [[_ <-] | [_ Hr]]; [reflexivity |].
    rewrite lookup_empty in Hr. discriminate Hr.
Defined.

(** * Further properties of the code *)

(** ** make_requests: edges and effects *)

Section ExecutorEdges.

Context {Choice Float : Type}.
Variable remote : nat -> Request Float -> Result (Response Choice).
Variable clock : nat -> string.
Variable model_name : string.

Lemma records_from_length (resp : option (Response Choice)) (n : Z) :
  forall (prompts : list string) (j : Z) (t : nat),
    List.length (records_from clock resp n j t prompts) = List.length prompts.
Proof.
  induction prompts as [| q ps IH]; intros j t; cbn; [| rewrite IH]; reflexivity.
Qed.

Lemma records_from_none (n : Z) :
  forall (prompts : list string) (j : Z) (t : nat),
    Forall (fun r => response r = None)
      (records_from (Choice := Choice) clock None n j t prompts).
Proof.
  induction prompts as [| q ps IH]; intros j t; cbn; constructor;
    [reflexivity | apply IH].
Qed.

(** X1. With a negative [retries] the loop is never entered: the endpoint
    is not invoked, and [make_requests] still returns one record per prompt
    (one record for a single string), each with [None] as its response. *)
Theorem make_requests_negative_retries (prompts : Prompts)
    (g : Generation Float) (n retries : Z) (w : World) :
  (retries < 0)%Z ->
  exists (w' : World) (results : list (ResultRecord Choice)),
    make_requests remote clock model_name prompts g n retries w =
      (w', Ok results) /\
    calls w' = calls w /\
    Forall (fun r => response r = None) results /\
    map prompt results =
      match prompts with PList l => l | PStr s => [s] end.
Proof.
  intros Hr. rewrite make_requests_skipped by exact Hr.
  destruct prompts as [s | l]; eexists _, _;
    (split; [reflexivity |]); cbn [calls]; (split; [reflexivity |]).
  - split; [repeat constructor | reflexivity].
  - split; [apply records_from_none | apply records_from_prompts].
Qed.

(** X2. An empty list of prompts is not a special case: for [retries >= 0]
    the endpoint is invoked once with the empty list, and the result is the
    empty list of records when it answers and its exception when it
    raises. *)
Theorem make_requests_empty_list (g : Generation Float) (n retries : Z)
    (w : World) :
  (0 <= retries)%Z ->
  calls (fst (make_requests remote clock model_name (PList []) g n retries w)) =
    S (calls w) /\
  snd (make_requests remote clock model_name (PList []) g n retries w) =
    match remote (calls w) (request_of model_name (PList []) g n) with
    | Ok _ => Ok []
    | Raise e => Raise e
    end.
Proof.
  intros Hr. rewrite make_requests_entered by exact Hr.
  destruct (remote (calls w) _); split; reflexivity.
Qed.

(** X3. Every record is stamped with its own reading of the clock, taken
    in the order of the prompts: when [make_requests] returns for a list of
    prompts, the record at index [j] carries the reading number
    [ticks + j], and the clock has been read once per prompt. *)
Theorem make_requests_timestamps (l : list string) (g : Generation Float)
    (n retries : Z) (w w' : World) (results : list (ResultRecord Choice)) :
  make_requests remote clock model_name (PList l) g n retries w =
    (w', Ok results) ->
  ticks w' = (ticks w + List.length l)%nat /\
  forall (j : nat) (rec : ResultRecord Choice),
    results !! j = Some rec -> created_at rec = clock (ticks w + j).
Proof.
  intros Hcall.
  assert (Hshape : exists resp,
             ticks w' = (ticks w + List.length l)%nat /\
             results = records_from clock resp n 0 (ticks w) l).
  { destruct (Z.le_gt_cases 0 retries) as [Hge | Hlt].
    - rewrite make_requests_entered in Hcall by exact Hge.
      destruct (remote (calls w) _) as [r | e]; [| discriminate].
      injection Hcall as <- <-. exists (Some r). split; reflexivity.
    - rewrite make_requests_skipped in Hcall by exact Hlt.
      injection Hcall as <- <-. exists None. split; reflexivity. }
  destruct Hshape as (resp & Hticks & ->). split; [exact Hticks |].
  intros j rec Hj.
  assert (Hlt : (j < List.length l)%nat).
  { rewrite <- (records_from_length resp n l 0 (ticks w)).
    apply lookup_lt_is_Some. eauto. }
  destruct (lookup_lt_is_Some_2 l j Hlt) as [p Hp].
  rewrite (records_from_lookup clock resp n l 0 (ticks w) j p Hp) in Hj.
  injection Hj as <-. reflexivity.
Qed.

(** X4. The number of choices in the response is not checked. For
    [n >= 0], a prompt at an index [j] with [j * n] at or past the end of
    [response.choices] gets a record with the empty list of choices, and no
    exception is raised. *)
Theorem make_requests_short_response (l : list string) (g : Generation Float)
    (n retries : Z) (w : World) (r : Response Choice) (j : nat) (p : string) :
  (0 <= retries)%Z ->
  (0 <= n)%Z ->
  remote (calls w) (request_of model_name (PList l) g n) = Ok r ->
  l !! j = Some p ->
  (Z.of_nat (List.length (choices r)) <= Z.of_nat j * n)%Z ->
  exists (w' : World) (results : list (ResultRecord Choice)),
    make_requests remote clock model_name (PList l) g n retries w =
      (w', Ok results) /\
    List.length results = List.length l /\
    results !! j = Some (mkRecord p (Some (Sliced [])) (clock (ticks w + j))).
Proof.
  intros Hr Hn Hok Hp Hshort.
  rewrite make_requests_entered by exact Hr. rewrite Hok.
  eexists _, _. split; [reflexivity |].
  split; [apply records_from_length |].
  rewrite (records_from_lookup clock (Some r) n l 0 (ticks w) j p Hp).
  cbn [field_at]. rewrite Z.add_0_l.
  assert (Hempty : Py.slice (choices r) (Z.of_nat j * n)
                     ((Z.of_nat j + 1) * n) = []).
  { apply list_eq. intros i. rewrite slice_lookup by nia.
    destruct (Z.of_nat i <? (Z.of_nat j + 1) * n - Z.of_nat j * n)%Z;
      [| reflexivity].
    apply lookup_ge_None. lia. }
  rewrite Hempty. reflexivity.
Qed.

(** X5. Whatever its arguments and whatever the endpoint does,
    [make_requests] leaves the output file alone, performs no wait, invokes
    the endpoint at most once and never turns the clock back. *)
Theorem make_requests_effects (prompts : Prompts) (g : Generation Float)
    (n retries : Z) (w : World) :
  output_file
    (fst (make_requests remote clock model_name prompts g n retries w)) =
    output_file w /\
  sleeps (fst (make_requests remote clock model_name prompts g n retries w)) =
    sleeps w /\
  (calls w <=
     calls (fst (make_requests remote clock model_name prompts g n retries w))
   <= S (calls w))%nat /\
  (ticks w <=
     ticks (fst (make_requests remote clock model_name prompts g n retries w)))%nat.
Proof.
  destruct (Z.le_gt_cases 0 retries) as [Hge | Hlt].
  - rewrite make_requests_entered by exact Hge.
    destruct (remote (calls w) _); [destruct prompts |]; cbn; repeat split; lia.
  - rewrite make_requests_skipped by exact Hlt.
    destruct prompts; cbn; repeat split; lia.
Qed.

End ExecutorEdges.

Lemma make_requests_negative_retries_witness :
  exists (w' : World) (results : list (ResultRecord string)),
    make_requests (Float := Q) (fails_then_succeeds 0 Scenario.answer)
        Scenario.clock Scenario.model_name (PList ["p0"; "p1"])
        Scenario.generation 2 (-1) Scenario.fresh = (w', Ok results) /\
    calls w' = calls Scenario.fresh /\
    Forall (fun r => response r = None) results /\
    map prompt results = ["p0"; "p1"].
Proof.
  apply (make_requests_negative_retries (fails_then_succeeds 0 Scenario.answer)
           Scenario.clock Scenario.model_name (PList ["p0"; "p1"])
           Scenario.generation 2 (-1) Scenario.fresh).
  lia.
Defined.

Lemma make_requests_empty_list_witness :
  calls (fst (make_requests (Choice := string) (Float := Q) always_fails
                Scenario.clock Scenario.model_name (PList [])
                Scenario.generation 1 3 Scenario.fresh)) = 1%nat /\
  snd (make_requests (Choice := string) (Float := Q) always_fails
         Scenario.clock Scenario.model_name (PList [])
         Scenario.generation 1 3 Scenario.fresh) = Raise (APIError true).
Proof.
  apply (make_requests_empty_list always_fails Scenario.clock
           Scenario.model_name Scenario.generation 1 3 Scenario.fresh).
  lia.
Defined.

Lemma make_requests_timestamps_witness :
  ticks (mkWorld 1 [] 3 None) = (ticks Scenario.fresh + 3)%nat /\
  forall (j : nat) (rec : ResultRecord string),
    records_from Scenario.clock (Some Scenario.answer) 2 0 0
      ["p0"; "p1"; "p2"] !! j = Some rec ->
    created_at rec = Scenario.clock (ticks Scenario.fresh + j).
Proof.
  apply (make_requests_timestamps (Float := Q)
           (fails_then_succeeds 0 Scenario.answer)
           Scenario.clock Scenario.model_name ["p0"; "p1"; "p2"]
           Scenario.generation 2 3 Scenario.fresh (mkWorld 1 [] 3 None)
           (records_from Scenario.clock (Some Scenario.answer) 2 0 0
              ["p0"; "p1"; "p2"])).
  reflexivity.
Defined.

Lemma make_requests_short_response_witness :
  exists (w' : World) (results : list (ResultRecord string)),
    make_requests (Float := Q) (fails_then_succeeds 0 Cases.short_answer)
        Scenario.clock Scenario.model_name (PList ["p0"; "p1"])
        Scenario.generation 2 3 Scenario.fresh = (w', Ok results) /\
    List.length results = 2%nat /\
    results !! 1%nat =
      Some (mkRecord "p1" (Some (Sliced [])) (Scenario.clock (0 + 1))).
Proof.
  apply (make_requests_short_response
           (fails_then_succeeds 0 Cases.short_answer)
           Scenario.clock Scenario.model_name ["p0"; "p1"]
           Scenario.generation 2 3 Scenario.fresh Cases.short_answer 1 "p1");
    [lia | lia | reflexivity | reflexivity | cbn; lia].
Defined.

(** ** The script: what a run does to the world *)

Lemma covered_app (prompts : list string) (s : Z) (a b : list Z) :
  covered prompts s (a ++ b) = covered prompts s a ++ covered prompts s b.
Proof. unfold covered. rewrite map_app, concat_app. reflexivity. Qed.

Lemma covered_take_prefix (prompts : list string) (s : Z) (k : nat)
    (offsets : list Z) :
  covered prompts s (take k offsets) `prefix_of` covered prompts s offsets.
Proof.
  exists (covered prompts s (drop k offsets)).
  rewrite <- covered_app, take_drop. reflexivity.
Qed.

Lemma comprehension_raises {A B} (f : A -> Result B) (xs : list A) (x : A)
    (e : Exn) :
  x ∈ xs -> f x = Raise e -> exists e', comprehension f xs = Raise e'.
Proof.
  induction xs as [| y ys IH]; intros Hx Hf.
  - inversion Hx.
  - cbn. apply elem_of_cons in Hx as [<- | Hx].
    + rewrite Hf. eauto.
    + destruct (f y); [| eauto].
      destruct (IH Hx Hf) as [e' ->]. eauto.
Qed.

Lemma comprehension_length {A B} (f : A -> Result B) :
  forall (xs : list A) (ys : list B),
    comprehension f xs = Ok ys -> List.length ys = List.length xs.
Proof.
  induction xs as [| x xs IH]; intros ys Hc.
  - injection Hc as <-. reflexivity.
  - cbn in Hc. destruct (f x); [| discriminate].
    destruct (comprehension f xs) as [ys' |] eqn:Hys; [| discriminate].
    injection Hc as <-. cbn. rewrite (IH ys' eq_refl). reflexivity.
Qed.

Section ScriptEdges.

Context {Choice Float : Type}.
Variable remote : nat -> Request Float -> Result (Response Choice).
Variable clock : nat -> string.
Variable model_name : string.
Variable json_dumps : ResultRecord Choice -> string.
Variable json_loads : string -> Result (ResultRecord Choice).
Variable json_loads_prompt : string -> Result string.

Local Abbreviation store := (gmap string (ResultRecord Choice)).
Local Abbreviation line := (record_line json_dumps).
Local Abbreviation step := (process_batch remote clock model_name json_dumps).
Local Abbreviation run :=
  (main remote clock model_name json_dumps json_loads json_loads_prompt).

(** The loop, whatever its outcome: it has replayed the batches at the
    first [k] offsets and then either came to its end or met a batch that is
    not fully stored. *)
Lemma loop_any (existing : store) (prompts : list string) (args : Args Float) :
  forall (offsets : list Z) (w w' : World) (out : list string)
         (res : Result unit),
    output_file w = Some out ->
    for_each (step existing prompts args) offsets w = (w', res) ->
    exists (k : nat) (recs : list (ResultRecord Choice)),
      replayed existing
        (covered prompts (request_batch_size args) (take k offsets)) recs /\
      w' = set_output w (out ++ map line recs) /\
      (res = Ok tt \/ res = Raise TypeError).
Proof.
  induction offsets as [| i offsets IH]; intros w w' out res Hout Hrun.
  - cbn in Hrun. injection Hrun as <- <-. exists 0%nat, [].
    split; [constructor |]. split; [| left; reflexivity].
    cbn. rewrite app_nil_r. symmetry. apply set_output_same, Hout.
  - cbn [for_each] in Hrun. unfold bind in Hrun.
    destruct (forallb (cached existing)
                (Py.slice prompts i (i + request_batch_size args))) eqn:Hall.
    + destruct (process_batch_cached remote clock model_name json_dumps
                  existing prompts args i w out Hout Hall)
        as (recs & Hrecs & Hstep).
      rewrite Hstep in Hrun.
      destruct (IH (set_output w (out ++ map line recs)) w'
                  (out ++ map line recs) res eq_refl Hrun)
        as (k & recs' & Hrecs' & -> & Hres).
      exists (S k), (recs ++ recs'). split; [| split; [| exact Hres]].
      * cbn [take]. unfold covered. cbn [map concat].
        apply Forall2_app; assumption.
      * rewrite set_output_twice, map_app, app_assoc. reflexivity.
    + rewrite (process_batch_uncached remote clock model_name json_dumps
                 existing prompts args i w Hall) in Hrun.
      injection Hrun as <- <-. exists 0%nat, [].
      split; [constructor |]. split; [| right; reflexivity].
      cbn. rewrite app_nil_r. symmetry. apply set_output_same, Hout.
Qed.

Lemma read_input_ok (args : Args Float) (fin : list string) (ps : list string) :
  Py.endswith (input_file args) ".jsonl" = true ->
  comprehension json_loads_prompt fin = Ok ps ->
  read_input json_loads_prompt args fin = Ok (mkNames (Some ps) None).
Proof. intros Hext Hc. unfold read_input. rewrite Hext, Hc. reflexivity. Qed.

(** X6. No run of the script ever invokes the remote endpoint, waits or
    reads the clock: whatever the command line, the input file and the
    output file found, these three counters are where they were when the
    run ends, with or without an exception. *)
Theorem main_never_invokes_endpoint (args : Args Float) (fin : list string)
    (w : World) :
  calls (fst (run args fin w)) = calls w /\
  sleeps (fst (run args fin w)) = sleeps w /\
  ticks (fst (run args fin w)) = ticks w.
Proof.
  rewrite main_unfold.
  destruct (snd (load_existing_responses json_loads args w))
    as [existing | e]; [| repeat split].
  destruct (read_input json_loads_prompt args fin) as [names | e];
    [| repeat split].
  destruct (all_prompts names) as [ps |]; [| repeat split].
  destruct (Py.range 0 (Z.of_nat (List.length ps)) (request_batch_size args))
    as [offsets | e]; [| repeat split].
  destruct (for_each (step existing ps args) offsets (set_output w []))
    as [w' res] eqn:Hrun.
  destruct (loop_any existing ps args offsets (set_output w []) w' [] res
              eq_refl Hrun) as (k & recs & _ & -> & _).
  repeat split.
Qed.

(** X7. A line of the existing output file that [json.loads] rejects stops
    a resuming run before the output file is opened for writing: the run
    raises and the world, output file included, is as it was. *)
Theorem main_corrupt_output_untouched (args : Args Float) (fin : list string)
    (w : World) (lines : list string) (l : string) (e : Exn) :
  use_existing_responses args = true ->
  output_file w = Some lines ->
  l ∈ lines ->
  json_loads l = Raise e ->
  exists e', run args fin w = (w, Raise e').
Proof.
  intros Hflag Hout Hl Hbad. rewrite main_unfold.
  unfold load_existing_responses. rewrite Hout, Hflag. cbn [snd].
  assert (Hraise : forall m : store,
             exists e', read_existing json_loads lines m = Raise e').
  { clear Hout. induction lines as [| l0 lines IH]; intros m.
    - inversion Hl.
    - cbn. apply elem_of_cons in Hl as [<- | Hl].
      + rewrite Hbad. eauto.
      + destruct (json_loads l0); [apply IH, Hl | eauto]. }
  destruct (Hraise ∅) as [e' ->]. eauto.
Qed.

(** X8. A line of a [.jsonl] input file that cannot be read as a document
    with a prompt stops the run before the output file is opened for
    writing: the run raises and the world, output file included, is as it
    was. *)
Theorem main_bad_input_untouched (args : Args Float) (fin : list string)
    (w : World) (existing : store) (l : string) (e : Exn) :
  snd (load_existing_responses json_loads args w) = Ok existing ->
  Py.endswith (input_file args) ".jsonl" = true ->
  l ∈ fin ->
  json_loads_prompt l = Raise e ->
  exists e', run args fin w = (w, Raise e').
Proof.
  intros Hload Hext Hl Hbad. rewrite main_unfold, Hload.
  unfold read_input. rewrite Hext.
  destruct (comprehension_raises json_loads_prompt fin l e Hl Hbad) as [e' ->].
  eauto.
Qed.

(** X9. With a batch size above 0, whatever way a run ends once the store
    and the prompts are loaded, the output file holds one line per prompt
    for a prefix of the prompts, in the order of the input, and the run has
    either ended normally or raised [TypeError]. *)
Theorem main_output_is_prefix (args : Args Float) (fin : list string)
    (w w' : World) (existing : store) (ps : list string) (res : Result unit) :
  (0 < request_batch_size args)%Z ->
  snd (load_existing_responses json_loads args w) = Ok existing ->
  Py.endswith (input_file args) ".jsonl" = true ->
  comprehension json_loads_prompt fin = Ok ps ->
  run args fin w = (w', res) ->
  exists recs : list (ResultRecord Choice),
    output_file w' = Some (map line recs) /\
    map prompt recs `prefix_of` ps /\
    (res = Ok tt \/ res = Raise TypeError).
Proof.
  intros Hsize Hload Hext Hcomp Hrun.
  rewrite main_unfold, Hload, (read_input_ok args fin ps Hext Hcomp) in Hrun.
  cbn [all_prompts] in Hrun.
  destruct (Py.range 0 (Z.of_nat (List.length ps)) (request_batch_size args))
    as [offsets | e] eqn:Hrange;
    [| rewrite range_positive in Hrange by exact Hsize; discriminate].
  destruct (loop_any existing ps args offsets (set_output w []) w' [] res
              eq_refl Hrun) as (k & recs & Hrep & -> & Hres).
  exists recs. split; [reflexivity |]. split; [| exact Hres].
  rewrite (replayed_prompts existing _ recs
             (load_existing_keyed json_loads args w existing Hload) Hrep).
  rewrite <- (covered_positive ps (request_batch_size args) offsets Hsize Hrange)
    at 2.
  apply covered_take_prefix.
Qed.

(** X10. With a batch size above 0, a run whose first prompt is not in the
    store raises [TypeError] at once: the output file has been emptied and
    the endpoint has not been invoked. In particular a first run, which has
    no store, cannot process any prompt. *)
Theorem main_first_prompt_missing (args : Args Float) (fin : list string)
    (w : World) (existing : store) (p : string) (rest : list string) :
  (0 < request_batch_size args)%Z ->
  snd (load_existing_responses json_loads args w) = Ok existing ->
  Py.endswith (input_file args) ".jsonl" = true ->
  comprehension json_loads_prompt fin = Ok (p :: rest) ->
  existing !! p = None ->
  run args fin w = (set_output w [], Raise TypeError).
Proof.
  intros Hsize Hload Hext Hcomp Hmiss.
  rewrite main_unfold, Hload, (read_input_ok args fin _ Hext Hcomp).
  cbn [all_prompts]. rewrite range_positive by exact Hsize.
  pose proof (range_len_pos (Z.of_nat (List.length (p :: rest)))
                (request_batch_size args) ltac:(lia) Hsize) as (Hm0 & Hm1 & _).
  destruct (Z.to_nat (Py.range_len 0 (Z.of_nat (List.length (p :: rest)))
                        (request_batch_size args))) as [| m] eqn:Hm.
  { assert (HM : Py.range_len 0 (Z.of_nat (List.length (p :: rest)))
                   (request_batch_size args) = 0%Z) by lia.
    rewrite HM in Hm1. cbn [List.length] in Hm1. lia. }
  cbn [seq map for_each]. unfold bind.
  rewrite process_batch_uncached; [reflexivity |].
  rewrite (slice_chunk (p :: rest) (request_batch_size args) 0 Hsize).
  destruct (Z.to_nat (request_batch_size args)) as [| c] eqn:Hc; [lia |].
  cbn. unfold cached at 1. rewrite Hmiss. reflexivity.
Qed.


(** X12. With batch size 0 a run that has loaded its store and its prompts
    raises [ValueError], for any prompts, after it has emptied the output
    file. *)
Theorem main_zero_batch_size (args : Args Float) (fin : list string)
    (w : World) (existing : store) (ps : list string) :
  request_batch_size args = 0%Z ->
  snd (load_existing_responses json_loads args w) = Ok existing ->
  Py.endswith (input_file args) ".jsonl" = true ->
  comprehension json_loads_prompt fin = Ok ps ->
  run args fin w = (set_output w [], Raise ValueError).
Proof.
  intros Hsize Hload Hext Hcomp.
  rewrite main_unfold, Hload, (read_input_ok args fin ps Hext Hcomp).
  cbn [all_prompts]. rewrite Hsize. reflexivity.
Qed.

End ScriptEdges.

(** ** The store and resumption *)

Section StoreAndResumption.

Context {Choice Float : Type}.
Variable remote : nat -> Request Float -> Result (Response Choice).
Variable clock : nat -> string.
Variable model_name : string.
Variable json_dumps : ResultRecord Choice -> string.
Variable json_loads : string -> Result (ResultRecord Choice).
Variable json_loads_prompt : string -> Result string.

Local Abbreviation store := (gmap string (ResultRecord Choice)).
Local Abbreviation line := (record_line json_dumps).
Local Abbreviation step := (process_batch remote clock model_name json_dumps).
Local Abbreviation run :=
  (main remote clock model_name json_dumps json_loads json_loads_prompt).

Lemma read_existing_app :
  forall (l1 l2 : list string) (m : store),
    read_existing json_loads (l1 ++ l2) m =
      match read_existing json_loads l1 m with
      | Ok m1 => read_existing json_loads l2 m1
      | Raise e => Raise e
      end.
Proof.
  induction l1 as [| l l1 IH]; intros l2 m; cbn.
  - reflexivity.
  - destruct (json_loads l); [apply IH | reflexivity].
Qed.

Lemma read_existing_from :
  forall (lines : list string) (m m' : store) (k : string)
         (r : ResultRecord Choice),
    read_existing json_loads lines m = Ok m' ->
    m' !! k = Some r ->
    m !! k = Some r \/ exists l, l ∈ lines /\ json_loads l = Ok r.
Proof.
  induction lines as [| l lines IH]; intros m m' k r Hread Hk.
  - injection Hread as <-. left. exact Hk.
  - cbn in Hread. destruct (json_loads l) as [data | e] eqn:Hl;
      [| discriminate].
    destruct (IH _ _ _ _ Hread Hk) as [Hin | (l' & Hl' & Hdec)].
    + apply lookup_insert_Some in Hin as [[_ <-] | [_ Hin]].
      * right. exists l. split; [left | exact Hl].
      * left. exact Hin.
    + right. exists l'. split; [right |]; assumption.
Qed.

(** X13. When the same prompt occurs on several lines of the existing
    output file, the last line wins: reading one more line that decodes to
    [r] stores [r] under its prompt, in place of whatever was stored there,
    and leaves every other prompt as it was. *)
Theorem read_existing_last_wins (lines : list string) (l : string)
    (m m1 : store) (r : ResultRecord Choice) :
  read_existing json_loads lines m = Ok m1 ->
  json_loads l = Ok r ->
  exists m' : store,
    read_existing json_loads (lines ++ [l]) m = Ok m' /\
    m' !! prompt r = Some r /\
    forall k, k <> prompt r -> m' !! k = m1 !! k.
Proof.
  intros Hread Hl. exists (<[prompt r := r]> m1).
  rewrite read_existing_app, Hread. cbn. rewrite Hl.
  split; [reflexivity |]. split.
  - apply lookup_insert_eq.
  - intros k Hk. apply lookup_insert_ne. congruence.
Qed.

(** X14. The store holds nothing but documents of the existing output
    file: every record in it was decoded from a line of that file, read
    with resumption enabled, and is stored under its own prompt. *)
Theorem store_records_come_from_lines (args : Args Float) (w : World)
    (existing : store) (k : string) (r : ResultRecord Choice) :
  snd (load_existing_responses json_loads args w) = Ok existing ->
  existing !! k = Some r ->
  prompt r = k /\
  use_existing_responses args = true /\
  exists (lines : list string) (l : string),
    output_file w = Some lines /\ l ∈ lines /\ json_loads l = Ok r.
Proof.
  intros Hload Hk.
  split; [apply (load_existing_keyed json_loads args w existing Hload k r Hk) |].
  unfold load_existing_responses in Hload.
  destruct (output_file w) as [lines |];
    [destruct (use_existing_responses args) |]; cbn in Hload.
  - split; [reflexivity |].
    destruct (read_existing_from lines ∅ existing k r Hload Hk)
      as [Hempty | (l & Hl & Hdec)].
    + rewrite lookup_empty in Hempty. discriminate.
    + exists lines, l. repeat split; assumption.
  - injection Hload as <-. rewrite lookup_empty in Hk. discriminate.
  - injection Hload as <-. rewrite lookup_empty in Hk. discriminate.
Qed.

(** X15. Without [--use_existing_responses] the content of the existing
    output file has no influence: once the input file is read, two runs
    that differ only in what the output file held end in the same world
    with the same outcome. *)
Theorem main_ignores_output_without_flag (args : Args Float)
    (fin : list string) (names : Names) (c : nat) (s : list Z) (t : nat)
    (o1 o2 : option (list string)) :
  use_existing_responses args = false ->
  read_input json_loads_prompt args fin = Ok names ->
  run args fin (mkWorld c s t o1) = run args fin (mkWorld c s t o2).
Proof.
  intros Hflag Hin. rewrite !main_unfold.
  unfold load_existing_responses. rewrite Hflag. cbn [output_file].
  destruct o1, o2; cbn [snd]; rewrite Hin; reflexivity.
Qed.

(** X16. Resumption does not depend on the batch size: after a run with a
    batch size above 0 that ends normally, a resuming run with any other
    batch size above 0 on the same input ends normally too, leaves the same
    lines and does not invoke the endpoint, provided every record the first
    run loaded decodes from the line written for it. *)
Theorem resumed_run_any_batch_size (args : Args Float) (fin : list string)
    (w0 w1 : World) (existing : store) (batch_size : Z) :
  (0 < request_batch_size args)%Z ->
  (0 < batch_size)%Z ->
  run args fin w0 = (w1, Ok tt) ->
  snd (load_existing_responses json_loads args w0) = Ok existing ->
  (forall p r, existing !! p = Some r -> json_loads (line r) = Ok r) ->
  exists (w2 : World) (out : list string),
    run (with_batch_size (with_resumption args) batch_size) fin w1 =
      (w2, Ok tt) /\
    output_file w1 = Some out /\
    output_file w2 = Some out /\
    calls w2 = calls w1.
Proof.
  intros Hsize Hsize' Hrun Hstore Hdec.
  destruct (main_complete _ _ _ _ _ _ _ _ _ _ Hrun)
    as (existing' & ps & offsets & recs & Hload & Hin & _ & Hrange & Hrep & ->).
  rewrite Hstore in Hload. injection Hload as <-.
  rewrite (covered_positive ps _ offsets Hsize Hrange) in Hrep.
  apply load_existing_keyed in Hstore.
  exists (set_output w0 (map line recs)), (map line recs).
  split; [| repeat split; reflexivity].
  rewrite main_unfold.
  unfold load_existing_responses. cbn [output_file set_output
    use_existing_responses with_resumption with_batch_size snd].
  rewrite read_existing_lines.
  2: { intros r Hr.
       destruct (Forall2_elem_r _ _ _ _ Hrep Hr) as (p & _ & Hp).
       apply (Hdec p r Hp). }
  change (read_input json_loads_prompt
            (with_batch_size (with_resumption args) batch_size) fin)
    with (read_input json_loads_prompt args fin).
  rewrite Hin.
  cbn [all_prompts request_batch_size with_resumption with_batch_size].
  destruct (Py.range 0 (Z.of_nat (List.length ps)) batch_size)
    as [offsets' | e] eqn:Hrange';
    [| rewrite range_positive in Hrange' by exact Hsize'; discriminate].
  rewrite (loop_cached remote clock model_name json_dumps
             (fold_left (fun m r => <[prompt r := r]> m) recs ∅) ps
             (with_batch_size (with_resumption args) batch_size) offsets' recs
             (set_output (set_output w0 (map line recs)) []) [] eq_refl).
  - reflexivity.
  - cbn [request_batch_size with_batch_size].
    rewrite (covered_positive ps batch_size offsets' Hsize' Hrange').
    apply (replayed_read_back existing); assumption.
Qed.

(** X17. In the output of a run that ends normally with a batch size above
    0, two positions of the input that hold the same prompt hold the same
    line: a repeated prompt repeats the one stored record. *)
Theorem complete_run_same_prompt_same_line (args : Args Float)
    (fin : list string) (w w' : World) (ps out : list string) (i j : nat)
    (p : string) :
  (0 < request_batch_size args)%Z ->
  run args fin w = (w', Ok tt) ->
  comprehension json_loads_prompt fin = Ok ps ->
  output_file w' = Some out ->
  ps !! i = Some p ->
  ps !! j = Some p ->
  is_Some (out !! i) /\ out !! i = out !! j.
Proof.
  intros Hsize Hrun Hcomp Hout Hi Hj.
  destruct (main_complete _ _ _ _ _ _ _ _ _ _ Hrun)
    as (existing & ps' & offsets & recs & _ & _ & Hcomp' & Hrange & Hrep & ->).
  rewrite Hcomp in Hcomp'. injection Hcomp' as <-.
  rewrite (covered_positive ps _ offsets Hsize Hrange) in Hrep.
  cbn in Hout. injection Hout as <-.
  destruct (Forall2_lookup_l _ _ _ _ _ Hrep Hi) as (ri & Hri & Hpi).
  destruct (Forall2_lookup_l _ _ _ _ _ Hrep Hj) as (rj & Hrj & Hpj).
  assert (ri = rj) as -> by congruence.
  rewrite !list_lookup_fmap, Hri, Hrj. split; [eexists |]; reflexivity.
Qed.

End StoreAndResumption.

(** ** Batch splitting and configuration *)

(** X18. A batch size at least the number of prompts, with at least one
    prompt, gives a single batch that holds all prompts. *)
Theorem split_batches_single (prompts : list string) (batch_size : Z) :
  prompts <> [] ->
  (Z.of_nat (List.length prompts) <= batch_size)%Z ->
  split_batches prompts batch_size = Ok [prompts].
Proof.
  intros Hne Hle.
  assert (Hpos : (0 < Z.of_nat (List.length prompts))%Z)
    by (destruct prompts; [contradiction | cbn; lia]).
  unfold split_batches. rewrite range_positive by lia.
  rewrite batches_positive by lia.
  assert (Hone : Py.range_len 0 (Z.of_nat (List.length prompts)) batch_size = 1%Z).
  { unfold Py.range_len.
    destruct (Z.ltb_spec 0 batch_size); [| lia].
    destruct (Z.ltb_spec 0 (Z.of_nat (List.length prompts))); [| lia].
    rewrite Z.div_small by lia. reflexivity. }
  rewrite Hone. change (Z.to_nat 1) with 1%nat. cbn [seq map].
  change (0 * Z.to_nat batch_size)%nat with 0%nat.
  rewrite drop_0, take_ge by lia. reflexivity.
Qed.

(** X19. The two settings read from the environment fall back
    differently. The base URL is never empty: an unset or empty
    [OPENAI_BASE_URL] gives the default. The model name is empty exactly
    when [OPENAI_MODEL_NAME] is set to the empty string: only an unset
    variable gives the default. *)
Theorem config_fallbacks (getenv : string -> option string) :
  Config.openai_base_url getenv <> EmptyString /\
  (Config.model_name getenv = EmptyString <->
   getenv "OPENAI_MODEL_NAME" = Some EmptyString) /\
  (getenv "OPENAI_MODEL_NAME" = None ->
   Config.model_name getenv = Config.default_model_name).
Proof.
  unfold Config.openai_base_url, Config.model_name.
  split; [| split].
  - destruct (getenv "OPENAI_BASE_URL") as [[| c s] |]; cbn; discriminate.
  - destruct (getenv "OPENAI_MODEL_NAME") as [s |]; cbn.
    + split; [intros -> | intros [= ->]]; reflexivity.
    + split; discriminate.
  - intros ->. reflexivity.
Qed.

(** ** The further properties at concrete inputs *)

Lemma main_corrupt_output_untouched_witness :
  exists e',
    Scenario.run always_fails (Scenario.args "in.jsonl" true 2)
      Scenario.three_prompts Cases.corrupt = (Cases.corrupt, Raise e').
Proof.
  apply (main_corrupt_output_untouched always_fails Scenario.clock
           Scenario.model_name Scenario.json_dumps Scenario.json_loads
           Scenario.json_loads_prompt (Scenario.args "in.jsonl" true 2)
           Scenario.three_prompts Cases.corrupt
           [record_line Scenario.json_dumps Scenario.recA; Cases.broken_line]
           Cases.broken_line JSONDecodeError);
    [reflexivity | reflexivity | right; left | reflexivity].
Defined.

Lemma main_bad_input_untouched_witness :
  exists e',
    Scenario.run always_fails (Scenario.args "in.jsonl" true 2)
      [Scenario.input_line "A"; Cases.broken_line] Scenario.resumed =
      (Scenario.resumed, Raise e').
Proof.
  apply (main_bad_input_untouched always_fails Scenario.clock
           Scenario.model_name Scenario.json_dumps Scenario.json_loads
           Scenario.json_loads_prompt (Scenario.args "in.jsonl" true 2)
           [Scenario.input_line "A"; Cases.broken_line] Scenario.resumed
           Scenario.full_store Cases.broken_line JSONDecodeError);
    [vm_compute; reflexivity | reflexivity | right; left | reflexivity].
Defined.

Lemma main_output_is_prefix_witness :
  exists recs : list (ResultRecord string),
    output_file
      (set_output Scenario.resumed
         (map (record_line Scenario.json_dumps) [Scenario.recA; Scenario.recB])) =
      Some (map (record_line Scenario.json_dumps) recs) /\
    map prompt recs `prefix_of` ["A"; "B"; "C"; "D"] /\
    (Raise TypeError = Ok tt \/ Raise TypeError = Raise (A := unit) TypeError).
Proof.
  apply (main_output_is_prefix always_fails Scenario.clock
           Scenario.model_name Scenario.json_dumps Scenario.json_loads
           Scenario.json_loads_prompt (Scenario.args "in.jsonl" true 2)
           Cases.four_prompts Scenario.resumed
           (set_output Scenario.resumed
              (map (record_line Scenario.json_dumps)
                 [Scenario.recA; Scenario.recB]))
           Scenario.full_store ["A"; "B"; "C"; "D"] (Raise TypeError));
    [cbn; lia | vm_compute; reflexivity | reflexivity | reflexivity
    | vm_compute; reflexivity].
Defined.

Lemma main_first_prompt_missing_witness :
  Scenario.run always_fails (Scenario.args "in.jsonl" false 2)
    Scenario.three_prompts Scenario.fresh =
    (set_output Scenario.fresh [], Raise TypeError).
Proof.
  apply (main_first_prompt_missing always_fails Scenario.clock
           Scenario.model_name Scenario.json_dumps Scenario.json_loads
           Scenario.json_loads_prompt (Scenario.args "in.jsonl" false 2)
           Scenario.three_prompts Scenario.fresh ∅ "A" ["B"; "C"]);
    [cbn; lia | reflexivity | reflexivity | reflexivity | reflexivity].
Defined.


Lemma main_zero_batch_size_witness :
  Scenario.run always_fails (Scenario.args "in.jsonl" true 0)
    Scenario.three_prompts Scenario.resumed =
    (set_output Scenario.resumed [], Raise ValueError).
Proof.
  apply (main_zero_batch_size always_fails Scenario.clock
           Scenario.model_name Scenario.json_dumps Scenario.json_loads
           Scenario.json_loads_prompt (Scenario.args "in.jsonl" true 0)
           Scenario.three_prompts Scenario.resumed Scenario.full_store
           ["A"; "B"; "C"]);
    [reflexivity | vm_compute; reflexivity | reflexivity | reflexivity].
Defined.

Lemma read_existing_last_wins_witness :
  exists m' : gmap string (ResultRecord string),
    read_existing Cases.json_loads
      ([record_line Scenario.json_dumps Scenario.recA;
        record_line Scenario.json_dumps Scenario.recB]
         ++ [record_line Scenario.json_dumps Cases.recA']) ∅ = Ok m' /\
    m' !! prompt Cases.recA' = Some Cases.recA' /\
    forall k, k <> prompt Cases.recA' ->
      m' !! k =
        (<["B" := Scenario.recB]> (<["A" := Scenario.recA]> ∅)
           : gmap string (ResultRecord string)) !! k.
Proof.
  apply (read_existing_last_wins Cases.json_loads
           [record_line Scenario.json_dumps Scenario.recA;
            record_line Scenario.json_dumps Scenario.recB]
           (record_line Scenario.json_dumps Cases.recA') ∅
           (<["B" := Scenario.recB]> (<["A" := Scenario.recA]> ∅))
           Cases.recA');
    [vm_compute; reflexivity | vm_compute; reflexivity].
Defined.

Lemma store_records_come_from_lines_witness :
  prompt Scenario.recB = "B" /\
  use_existing_responses (Scenario.args "in.jsonl" true 2) = true /\
  exists (lines : list string) (l : string),
    output_file Scenario.resumed = Some lines /\ l ∈ lines /\
    Scenario.json_loads l = Ok Scenario.recB.
Proof.
  apply (store_records_come_from_lines Scenario.json_loads
           (Scenario.args "in.jsonl" true 2) Scenario.resumed
           Scenario.full_store "B" Scenario.recB);
    [vm_compute; reflexivity | vm_compute; reflexivity].
Defined.

Lemma main_ignores_output_without_flag_witness :
  Scenario.run always_fails (Scenario.args "in.jsonl" false 2)
    Scenario.three_prompts
    (mkWorld 0 [] 0
       (Some (map (record_line Scenario.json_dumps) Scenario.documents))) =
  Scenario.run always_fails (Scenario.args "in.jsonl" false 2)
    Scenario.three_prompts (mkWorld 0 [] 0 None).
Proof.
  apply (main_ignores_output_without_flag always_fails Scenario.clock
           Scenario.model_name Scenario.json_dumps Scenario.json_loads
           Scenario.json_loads_prompt (Scenario.args "in.jsonl" false 2)
           Scenario.three_prompts (mkNames (Some ["A"; "B"; "C"]) None)
           0%nat [] 0%nat
           (Some (map (record_line Scenario.json_dumps) Scenario.documents))
           None);
    [reflexivity | reflexivity].
Defined.

Lemma resumed_run_any_batch_size_witness :
  exists (w2 : World) (out : list string),
    Scenario.run always_fails
        (with_batch_size (with_resumption (Scenario.args "in.jsonl" true 2)) 3)
        Scenario.three_prompts
        (set_output Scenario.resumed
           (map (record_line Scenario.json_dumps) Scenario.documents)) =
      (w2, Ok tt) /\
    output_file
      (set_output Scenario.resumed
         (map (record_line Scenario.json_dumps) Scenario.documents)) =
      Some out /\
    output_file w2 = Some out /\
    calls w2 =
      calls (set_output Scenario.resumed
               (map (record_line Scenario.json_dumps) Scenario.documents)).
Proof.
  apply (resumed_run_any_batch_size always_fails Scenario.clock
           Scenario.model_name Scenario.json_dumps Scenario.json_loads
           Scenario.json_loads_prompt (Scenario.args "in.jsonl" true 2)
           Scenario.three_prompts Scenario.resumed
           (set_output Scenario.resumed
              (map (record_line Scenario.json_dumps) Scenario.documents))
           Scenario.full_store 3).
  - cbn; lia.
  - lia.
  - vm_compute; reflexivity.
  - vm_compute; reflexivity.
  - intros p r Hr. unfold Scenario.full_store in Hr.
    apply lookup_insert_Some in Hr as [[_ <-] | [_ Hr]]; [reflexivity |].
    apply lookup_insert_Some in Hr as [[_ <-] | [_ Hr]]; [reflexivity |].
    apply lookup_insert_Some in Hr as [[_ <-] | [_ Hr]]; [reflexivity |].
    rewrite lookup_empty in Hr. discriminate Hr.
Defined.

Lemma complete_run_same_prompt_same_line_witness :
  is_Some
    (map (record_line Scenario.json_dumps)
       [Scenario.recA; Scenario.recB; Scenario.recA] !! 0%nat) /\
  map (record_line Scenario.json_dumps)
    [Scenario.recA; Scenario.recB; Scenario.recA] !! 0%nat =
  map (record_line Scenario.json_dumps)
    [Scenario.recA; Scenario.recB; Scenario.recA] !! 2%nat.
Proof.
  apply (complete_run_same_prompt_same_line always_fails Scenario.clock
           Scenario.model_name Scenario.json_dumps Scenario.json_loads
           Scenario.json_loads_prompt (Scenario.args "in.jsonl" true 2)
           Cases.repeated_prompts Scenario.resumed
           (set_output Scenario.resumed
              (map (record_line Scenario.json_dumps)
                 [Scenario.recA; Scenario.recB; Scenario.recA]))
           ["A"; "B"; "A"]
           (map (record_line Scenario.json_dumps)
              [Scenario.recA; Scenario.recB; Scenario.recA])
           0%nat 2%nat "A");
    [cbn; lia | vm_compute; reflexivity | reflexivity | reflexivity
    | reflexivity | reflexivity].
Defined.

Lemma split_batches_single_witness :
  split_batches ["A"; "B"; "C"] 5 = Ok [["A"; "B"; "C"]].
Proof.
  apply (split_batches_single ["A"; "B"; "C"] 5); [discriminate | cbn; lia].
Defined.

Lemma config_fallbacks_witness :
  Config.openai_base_url Cases.empty_env = Config.default_base_url /\
  Config.model_name Cases.empty_env = EmptyString.
Proof.
  split; [reflexivity |].
  apply (proj2 (proj1 (proj2 (config_fallbacks Cases.empty_env)))).
  reflexivity.
Defined.
